(** * apps/opengl_demo/main.cpp: buffer descriptors and residency strategies

    The demo loads an image, runs an ahead-of-time compiled filter through
    three data-residency strategies and shows the results.  Everything the
    program does besides building [buffer_t] descriptors is a call into a
    collaborator (timer, PNG loader, layout, GLFW, OpenGL helpers, the Halide
    runtime and the two compiled filters).  The embedding therefore has two
    layers:

    - [create_buffer] and the field assignments are pure functions on a
      record that mirrors [buffer_t];
    - the functions of main.cpp are programs in a small free monad [prog]
      whose only effects are the collaborator calls, process exit and abnormal
      termination.  A [Runtime] gives each call its answer; [run] executes
      a program against a runtime and records the calls in order. *)

From Stdlib Require Import ZArith Lia.
From stdpp Require Import base list strings.

Local Open Scope Z_scope.

(** ** The C++ [int] of the target: 32 bits, two's complement *)

Module Int.

Definition min_signed : Z := - 2 ^ 31.
Definition max_signed : Z := 2 ^ 31 - 1.

Definition in_range (z : Z) : Prop := min_signed <= z <= max_signed.

(** Reduction of a mathematical result to the representable range.  Signed
    overflow is undefined in C++; the compilers the demo is built with
    produce the two's complement result, which is what is written here. *)
Definition wrap (z : Z) : Z := (z + 2 ^ 31) mod 2 ^ 32 - 2 ^ 31.

Definition mul (a b : Z) : Z := wrap (a * b).

End Int.

(** ** Pointers and handles *)

(** A host address; [nullptr] is address 0. *)
Definition ptr : Type := Z.
Definition nullptr : ptr := 0.

(** An OpenGL texture name. *)
Definition GLuint : Type := Z.

(** ** The descriptor *)

(** Modelled from the spec: the declaration of [buffer_t] (HalideRuntime.h) is
    not among the sources.  The spec's BufferDescriptor has the extents, the
    strides, the element size, the host pointer, the [host_dirty] flag and the
    device handle; the per-axis minimum and the [dev_dirty] flag complete the
    runtime's declaration.  The three arrays have four slots. *)
Record buffer_t : Type := mk_buffer_t {
  dev : Z;
  host : ptr;
  extent : list Z;
  stride : list Z;
  min : list Z;
  elem_size : Z;
  host_dirty : bool;
  dev_dirty : bool
}.

(** Field assignments [buf.f = v] and [buf.f[i] = v]. *)
Definition set_host (buf : buffer_t) (p : ptr) : buffer_t :=
  mk_buffer_t (dev buf) p (extent buf) (stride buf) (min buf)
              (elem_size buf) (host_dirty buf) (dev_dirty buf).

Definition set_host_dirty (buf : buffer_t) (b : bool) : buffer_t :=
  mk_buffer_t (dev buf) (host buf) (extent buf) (stride buf) (min buf)
              (elem_size buf) b (dev_dirty buf).

Definition set_elem_size (buf : buffer_t) (v : Z) : buffer_t :=
  mk_buffer_t (dev buf) (host buf) (extent buf) (stride buf) (min buf)
              v (host_dirty buf) (dev_dirty buf).

Definition set_stride (buf : buffer_t) (i : nat) (v : Z) : buffer_t :=
  mk_buffer_t (dev buf) (host buf) (extent buf) (<[i:=v]> (stride buf)) (min buf)
              (elem_size buf) (host_dirty buf) (dev_dirty buf).

Definition set_extent (buf : buffer_t) (i : nat) (v : Z) : buffer_t :=
  mk_buffer_t (dev buf) (host buf) (<[i:=v]> (extent buf)) (stride buf) (min buf)
              (elem_size buf) (host_dirty buf) (dev_dirty buf).

(** [buffer_t buf = {0};] : the first member is 0 and every other member is
    value-initialised, that is, zero as well. *)
Definition zero_buffer : buffer_t :=
  {| dev := 0; host := nullptr;
     extent := [0; 0; 0; 0]; stride := [0; 0; 0; 0]; min := [0; 0; 0; 0];
     elem_size := 0; host_dirty := false; dev_dirty := false |}.

(** main.cpp, lines 19-34. *)
Definition create_buffer (width height : Z) : buffer_t :=
  let channels := 4 in
  let elem_size := 1 in
  let buf := zero_buffer in
  let buf := set_stride buf 0 channels in
  let buf := set_stride buf 1 (Int.mul channels width) in
  let buf := set_stride buf 2 1 in
  let buf := set_elem_size buf elem_size in
  let buf := set_extent buf 0 width in
  let buf := set_extent buf 1 height in
  let buf := set_extent buf 2 channels in
  buf.

(** ** Collaborators *)

(** The two descriptors of a strategy are locals of its frame and are handed
    to the runtime by address.  A [buf_ref] is such an argument: which local
    is pointed at, and what it holds when the call is made. *)
Inductive buf_var : Type := input_buf_var | output_buf_var.

Definition buf_ref : Type := buf_var * buffer_t.

Definition addr_input (buf : buffer_t) : buf_ref := (input_buf_var, buf).
Definition addr_output (buf : buffer_t) : buf_ref := (output_buf_var, buf).

(** Modelled from the spec: png_helpers.h, layout.h, glfw_helpers.h, timer.h
    and opengl_helpers.h are not among the sources.  The Image of the spec has
    a width, a height and an owned pixel buffer; the layout and the window of
    main.cpp are read through [window_width], [window_height] and
    [dpi_scale]; a running timer is an opaque token.  The image dimensions
    are taken to be [int], the type of the parameters they are passed to. *)
Record image_t : Type := { image_width : Z; image_height : Z; image_data : ptr }.
Record layout_t : Type := { window_width : Z; window_height : Z }.
Record glfw_t : Type := { dpi_scale : Z }.
Definition timer_t : Type := Z.

(** [Layout::UL], [Layout::UR], [Layout::LL], [Layout::LR]. *)
Inductive location : Type := UL | UR | LL | LR.

(** Every call main.cpp makes outside itself, with its arguments. *)
Inductive call : Type :=
| Timer_start (name : string)
| Timer_report (time : timer_t)
| sample_filter_cpu (input output : buf_ref)
| sample_filter_opengl (input output : buf_ref)
| halide_copy_to_host (user_context : ptr) (buf : buf_ref)
| halide_opengl_wrap_texture (user_context : ptr) (buf : buf_ref) (texture_id : GLuint)
| halide_opengl_detach_texture (user_context : ptr) (buf : buf_ref)
| halide_opengl_context_lost (user_context : ptr)
| PNGHelpers_load (filename : string)
| Layout_setup (width height : Z)
| Layout_draw_image (where_ : location) (data : ptr) (width height : Z) (label : string)
| Layout_draw_texture (where_ : location) (texture_id : GLuint) (width height : Z) (label : string)
| GlfwHelpers_setup (width height : Z)
| GlfwHelpers_terminate
| GlfwHelpers_set_opengl_context
| OpenGLHelpers_setup (scale : Z)
| OpenGLHelpers_create_texture (width height : Z) (data : ptr)
| OpenGLHelpers_delete_texture (texture_id : GLuint)
| calloc (nmemb size : Z)
| free (p : ptr)
| cerr_put_string (s : string)
| cerr_put_cstr (s : option string)
| cerr_endl.

(** What a call gives back.  A call that receives a descriptor by address
    also gives back what the descriptor holds afterwards; the filters and the
    runtime functions return an [int] status first. *)
Definition resp (c : call) : Type :=
  match c with
  | Timer_start _ => timer_t
  | Timer_report _ => string
  | sample_filter_cpu _ _ | sample_filter_opengl _ _ => Z * buffer_t * buffer_t
  | halide_copy_to_host _ _
  | halide_opengl_wrap_texture _ _ _
  | halide_opengl_detach_texture _ _ => Z * buffer_t
  | halide_opengl_context_lost _ => Z
  | PNGHelpers_load _ => image_t
  | Layout_setup _ _ => layout_t
  | GlfwHelpers_setup _ _ => glfw_t
  | OpenGLHelpers_create_texture _ _ _ => GLuint
  | calloc _ _ => ptr
  | _ => unit
  end.

(** ** Programs *)

(** A program returns, makes a call and goes on with what the call gave back,
    leaves the process through [exit(status)], or is stopped: the one place
    where that happens is the construction of a [std::string] from an
    [argv] slot that holds no string.  The answer of a call is an argument
    of the continuation, so a call has returned before the next step
    starts: every call is synchronous. *)
Inductive prog (A : Type) : Type :=
| Ret (a : A)
| Call (c : call) (k : resp c -> prog A)
| Exit (status : Z)
| Abort.

Arguments Ret {A} a.
Arguments Call {A} c k.
Arguments Exit {A} status.
Arguments Abort {A}.

Fixpoint bind {A B : Type} (p : prog A) (f : A -> prog B) : prog B :=
  match p with
  | Ret a => f a
  | Call c k => Call c (fun r => bind (k r) f)
  | Exit status => Exit status
  | Abort => Abort
  end.

#[global] Instance prog_ret : MRet prog := @Ret.
#[global] Instance prog_bind : MBind prog := fun A B f p => bind p f.

Definition call_ (c : call) : prog (resp c) := Call c Ret.

(** ** Running a program *)

(** The collaborators: a state of the world outside main.cpp and, for each
    call, its answer and the next state.  Nothing is assumed about them. *)
Class Runtime : Type := {
  world : Type;
  respond : forall c : call, world -> resp c * world
}.

(** How a program ends: by [return], by [exit], or stopped. *)
Inductive outcome (A : Type) : Type :=
| Returned (a : A)
| Exited (status : Z)
| Aborted.

Arguments Returned {A} a.
Arguments Exited {A} status.
Arguments Aborted {A}.

(** An execution: how it ended, the calls made in order, the world left. *)
Record execution `{rt : Runtime} (A : Type) : Type := mk_execution {
  result : outcome A;
  trace : list call;
  final : world
}.

Arguments mk_execution {_ A} result trace final.
Arguments result {_ A} e.
Arguments trace {_ A} e.
Arguments final {_ A} e.

Fixpoint run `{rt : Runtime} {A : Type} (p : prog A) (w : world) : execution A :=
  match p with
  | Ret a => mk_execution (Returned a) [] w
  | Call c k =>
      let rw := respond c w in
      let e := run (k rw.1) rw.2 in
      mk_execution (result e) (c :: trace e) (final e)
  | Exit status => mk_execution (Exited status) [] w
  | Abort => mk_execution Aborted [] w
  end.

(** ** The residency strategies (main.cpp, lines 41-117) *)

Local Open Scope string_scope.

Definition run_cpu_filter (image_data result_data : ptr) (width height : Z)
  : prog string :=
  time ← call_ (Timer_start "CPU");
  let input_buf := create_buffer width height in
  let input_buf := set_host input_buf image_data in
  let output_buf := create_buffer width height in
  let output_buf := set_host output_buf result_data in
  '(_, input_buf, output_buf) ←
    call_ (sample_filter_cpu (addr_input input_buf) (addr_output output_buf));
  call_ (Timer_report time).

Definition run_opengl_filter_from_host_to_host
    (image_data result_data : ptr) (width height : Z) : prog string :=
  time ← call_ (Timer_start "OpenGL host-to-host");
  let input_buf := create_buffer width height in
  let input_buf := set_host input_buf image_data in
  let input_buf := set_host_dirty input_buf true in
  let output_buf := create_buffer width height in
  let output_buf := set_host output_buf result_data in
  '(_, input_buf, output_buf) ←
    call_ (sample_filter_opengl (addr_input input_buf) (addr_output output_buf));
  '(_, output_buf) ← call_ (halide_copy_to_host nullptr (addr_output output_buf));
  call_ (Timer_report time).

Definition run_opengl_filter_from_texture_to_texture
    (input_texture_id output_texture_id : GLuint) (width height : Z) : prog string :=
  time ← call_ (Timer_start "OpenGL texture-to-texture");
  let input_buf := create_buffer width height in
  '(_, input_buf) ←
    call_ (halide_opengl_wrap_texture nullptr (addr_input input_buf) input_texture_id);
  let output_buf := create_buffer width height in
  '(_, output_buf) ←
    call_ (halide_opengl_wrap_texture nullptr (addr_output output_buf) output_texture_id);
  '(_, input_buf, output_buf) ←
    call_ (sample_filter_opengl (addr_input input_buf) (addr_output output_buf));
  '(_, output_buf) ← call_ (halide_opengl_detach_texture nullptr (addr_output output_buf));
  '(_, input_buf) ← call_ (halide_opengl_detach_texture nullptr (addr_input input_buf));
  call_ (Timer_report time).

(** ** [main] (lines 119-179) *)

(** Conversion of an [int] to [size_t] at the call of [calloc]. *)
Definition size_t_of_int (z : Z) : Z := z mod 2 ^ 64.

Definition main (argc : Z) (argv : list string) : prog Z :=
  _ ← (if negb (argc =? 2)%Z then
         _ ← call_ (cerr_put_string "Usage: ");
         _ ← call_ (cerr_put_cstr (argv !! 0%nat));
         _ ← call_ (cerr_put_string " filename");
         _ ← call_ cerr_endl;
         Exit 1
       else Ret tt);
  filename ← match argv !! 1%nat with Some s => Ret s | None => Abort end;
  image ← call_ (PNGHelpers_load filename);
  let width := image_width image in
  let height := image_height image in
  layout ← call_ (Layout_setup width height);
  glfw ← call_ (GlfwHelpers_setup (window_width layout) (window_height layout));
  _ ← call_ (OpenGLHelpers_setup (dpi_scale glfw));
  _ ← call_ (Layout_draw_image UL (image_data image) width height "Input");
  cpu_result_data ←
    call_ (calloc (size_t_of_int (Int.mul (Int.mul width height) 4)) 1);
  report ← run_cpu_filter (image_data image) cpu_result_data width height;
  _ ← call_ (Layout_draw_image UR cpu_result_data width height report);
  _ ← call_ (free cpu_result_data);
  opengl_result_data ←
    call_ (calloc (size_t_of_int (Int.mul (Int.mul width height) 4)) 1);
  report ← run_opengl_filter_from_host_to_host
             (image_data image) opengl_result_data width height;
  _ ← call_ (Layout_draw_image LL opengl_result_data width height report);
  _ ← call_ (free opengl_result_data);
  image_texture_id ←
    call_ (OpenGLHelpers_create_texture width height (image_data image));
  result_texture_id ← call_ (OpenGLHelpers_create_texture width height nullptr);
  report ← run_opengl_filter_from_texture_to_texture
             image_texture_id result_texture_id width height;
  _ ← call_ (Layout_draw_texture LR result_texture_id width height report);
  _ ← call_ (OpenGLHelpers_delete_texture image_texture_id);
  _ ← call_ (OpenGLHelpers_delete_texture result_texture_id);
  _ ← call_ (halide_opengl_context_lost nullptr);
  _ ← call_ GlfwHelpers_terminate;
  _ ← call_ (free (image_data image));
  Ret 0.

(** ** The context hook (lines 189-193) *)

Definition halide_opengl_create_context (user_context : ptr) : prog Z :=
  _ ← call_ GlfwHelpers_set_opengl_context;
  Ret 0.

(** ** Reading a trace *)

(** The descriptors a call receives, in argument order. *)
Definition call_bufs (c : call) : list buf_ref :=
  match c with
  | sample_filter_cpu i o | sample_filter_opengl i o => [i; o]
  | halide_copy_to_host _ b
  | halide_opengl_wrap_texture _ b _
  | halide_opengl_detach_texture _ b => [b]
  | _ => []
  end.

(** What the descriptors hold when the call returns, in the same order. *)
Definition resp_bufs (c : call) : resp c -> list buffer_t :=
  match c return resp c -> list buffer_t with
  | sample_filter_cpu _ _ | sample_filter_opengl _ _ => fun r => [r.1.2; r.2]
  | halide_copy_to_host _ _
  | halide_opengl_wrap_texture _ _ _
  | halide_opengl_detach_texture _ _ => fun r => [r.2]
  | _ => fun _ => []
  end.

(** The [int] status of a filter or runtime call. *)
Definition resp_status (c : call) : resp c -> option Z :=
  match c return resp c -> option Z with
  | sample_filter_cpu _ _ | sample_filter_opengl _ _ => fun r => Some r.1.1
  | halide_copy_to_host _ _
  | halide_opengl_wrap_texture _ _ _
  | halide_opengl_detach_texture _ _ => fun r => Some r.1
  | halide_opengl_context_lost _ => fun r => Some r
  | _ => fun _ => None
  end.

Definition is_invoke (c : call) : bool :=
  match c with
  | sample_filter_cpu _ _ | sample_filter_opengl _ _ => true
  | _ => false
  end.

Definition is_wrap (c : call) : bool :=
  match c with halide_opengl_wrap_texture _ _ _ => true | _ => false end.

Definition is_detach (c : call) : bool :=
  match c with halide_opengl_detach_texture _ _ => true | _ => false end.

Definition is_copy_to_host (c : call) : bool :=
  match c with halide_copy_to_host _ _ => true | _ => false end.

Definition is_context_lost (c : call) : bool :=
  match c with halide_opengl_context_lost _ => true | _ => false end.

Definition is_terminate (c : call) : bool :=
  match c with GlfwHelpers_terminate => true | _ => false end.

Definition is_context_creation (c : call) : bool :=
  match c with GlfwHelpers_setup _ _ => true | _ => false end.

(** Wrap, detach and copy-to-host: the device operations of a strategy. *)
Definition is_device_op (c : call) : bool :=
  is_wrap c || is_detach c || is_copy_to_host c.

(** Does the call receive the address of the local [v]? *)
Definition touches (v : buf_var) (c : call) : bool :=
  existsb (fun b : buf_ref => match v, b.1 with
                              | input_buf_var, input_buf_var
                              | output_buf_var, output_buf_var => true
                              | _, _ => false
                              end) (call_bufs c).

(** Extents, strides and element size. *)
Definition shape (buf : buffer_t) : list Z * list Z * Z :=
  (extent buf, stride buf, elem_size buf).

(** A runtime keeps the observation [f] of descriptors when no call changes
    it in a descriptor it receives. *)
Definition keeps `{rt : Runtime} {X : Type} (f : buffer_t -> X) : Prop :=
  forall (c : call) (w : world),
    f <$> resp_bufs c (respond c w).1 = f <$> (snd <$> call_bufs c).

(** ** A runtime to execute the programs on *)

Definition set_dev (buf : buffer_t) (d : Z) : buffer_t :=
  mk_buffer_t d (host buf) (extent buf) (stride buf) (min buf)
              (elem_size buf) (host_dirty buf) (dev_dirty buf).

(** The loader yields a 4x1 image at address 4096; timers, textures and
    allocations are numbered by a counter, which is the state of the world;
    the filters leave the descriptors as they are and return [status]; wrap
    and detach set and clear the device handle. *)
Definition sample_respond (status : Z) (c : call) (w : Z) : resp c * Z :=
  match c return resp c * Z with
  | Timer_start _ => (w, w + 1)
  | Timer_report t => ("report", w)
  | sample_filter_cpu i o | sample_filter_opengl i o => ((status, i.2, o.2), w)
  | halide_copy_to_host _ b => ((0, b.2), w)
  | halide_opengl_wrap_texture _ b t => ((0, set_dev b.2 t), w)
  | halide_opengl_detach_texture _ b => ((0, set_dev b.2 0), w)
  | halide_opengl_context_lost _ => (0, w)
  | PNGHelpers_load _ =>
      ({| image_width := 4; image_height := 1; image_data := 4096 |}, w)
  | Layout_setup width height =>
      ({| window_width := 2 * width; window_height := 2 * height |}, w)
  | GlfwHelpers_setup _ _ => ({| dpi_scale := 1 |}, w)
  | OpenGLHelpers_create_texture _ _ _ => (w + 1, w + 1)
  | calloc _ _ => (8192 + 64 * w, w + 1)
  | _ => (tt, w)
  end.

Definition sample_runtime (status : Z) : Runtime :=
  {| world := Z; respond := sample_respond status |}.

(** ** Predicates on runs *)

(** The C runtime passes [argc] strings in [argv]. *)
Definition command_line (argc : Z) (argv : list string) : Prop :=
  Z.of_nat (length argv) = argc.

(** The last call of a trace that receives the address of the local [v]. *)
Definition last_touch (v : buf_var) (t : list call) : option call :=
  last (filter (fun c => touches v c = true) t).

(** Every descriptor handed out in the trace satisfies [P]. *)
Definition all_bufs (P : buffer_t -> Prop) (t : list call) : Prop :=
  Forall (fun c => Forall (fun b : buf_ref => P b.2) (call_bufs c)) t.

(** A filter invocation whose two descriptors agree on extents, strides and
    element size; any other call qualifies. *)
Definition same_shape_invocation (c : call) : Prop :=
  match c with
  | sample_filter_cpu i o | sample_filter_opengl i o => shape i.2 = shape o.2
  | _ => True
  end.

(** ** Transcripts *)

(** A call together with what it gave back. *)
Record answered : Type := Answered { the_call : call; the_answer : resp the_call }.

Notation "c ~> r" := (Answered c r) (at level 55, no associativity).

(** The calls of an execution with their answers, in order: what [trace]
    records, and the values that flow from one call into the next. *)
Fixpoint transcript `{rt : Runtime} {A : Type} (p : prog A) (w : world)
  : list answered :=
  match p with
  | Call c k =>
      let rw := respond c w in
      (c ~> rw.1) :: transcript (k rw.1) rw.2
  | _ => []
  end.

(** [s] occurs in [l] as a run of consecutive entries. *)
Definition segment {A : Type} (s l : list A) : Prop :=
  exists pre post, l = (pre ++ s ++ post)%list.

(** ** Addressing through a descriptor *)

(** Modelled from the spec: the addressing convention of [buffer_t] belongs to
    the runtime, which is not among the sources.  The spec gives the strides
    per axis of a pixel-interleaved row-major layout; a stride is the distance
    in elements between neighbours along its axis, so the element at
    [(x, y, c)] lies [(x - min0) * stride0 + (y - min1) * stride1 +
    (c - min2) * stride2] elements after the host pointer.  An element has
    [elem_size] bytes. *)
Definition element_offset (buf : buffer_t) (x y c : Z) : option Z :=
  match stride buf, min buf with
  | s0 :: s1 :: s2 :: _, m0 :: m1 :: m2 :: _ =>
      Some (((x - m0) * s0 + (y - m1) * s1 + (c - m2) * s2) * elem_size buf)
  | _, _ => None
  end.

(** The coordinates the extents of a descriptor admit. *)
Definition in_extent (buf : buffer_t) (x y c : Z) : Prop :=
  match extent buf, min buf with
  | e0 :: e1 :: e2 :: _, m0 :: m1 :: m2 :: _ =>
      m0 <= x < m0 + e0 /\ m1 <= y < m1 + e1 /\ m2 <= c < m2 + e2
  | _, _ => False
  end.

(** ** Monitors over a transcript *)

(** Removal of one occurrence. *)
Fixpoint remove_one {A : Type} `{EqDecision A} (x : A) (l : list A) : list A :=
  match l with
  | [] => []
  | y :: l' => if decide (x = y) then l' else y :: remove_one x l'
  end.

#[global] Instance buf_var_eq_dec : EqDecision buf_var.
Proof. solve_decision. Defined.

(** Timed regions.  [open] holds the token of the running timer, if any.  A
    timer is started only when none is running; a report names the running
    timer and ends the region; filter invocations, wraps, detaches and
    copy-to-host calls occur inside a region and every other call outside;
    at the end no timer is running. *)
Fixpoint timed (open : option timer_t) (l : list answered) : Prop :=
  match l with
  | [] => open = None
  | a :: l' =>
      match the_call a as c return resp c -> Prop with
      | Timer_start _ => fun t => open = None /\ timed (Some t) l'
      | Timer_report t => fun _ => open = Some t /\ timed None l'
      | _ => fun _ =>
          (if is_invoke (the_call a) || is_device_op (the_call a)
           then open <> None else open = None)
          /\ timed open l'
      end (the_answer a)
  end.

(** The host addresses a call passes, directly or in a descriptor. *)
Definition call_ptrs (c : call) : list ptr :=
  match c with
  | Layout_draw_image _ data _ _ _ => [data]
  | OpenGLHelpers_create_texture _ _ data => [data]
  | free p => [p]
  | _ => (fun b : buf_ref => host b.2) <$> call_bufs c
  end.

(** Host memory.  [live] holds the blocks received from the loader or from
    [calloc] and not freed yet.  Every address a call passes is null or
    live; [free] receives a live block, which is live no longer; at the end
    no block is live. *)
Fixpoint memory_ok (live : list ptr) (l : list answered) : Prop :=
  match l with
  | [] => live = []
  | a :: l' =>
      Forall (fun p => p = nullptr \/ p ∈ live) (call_ptrs (the_call a)) /\
      match the_call a as c return resp c -> Prop with
      | PNGHelpers_load _ => fun image => memory_ok (image_data image :: live) l'
      | calloc _ _ => fun p => memory_ok (p :: live) l'
      | free p => fun _ => p ∈ live /\ memory_ok (remove_one p live) l'
      | _ => fun _ => memory_ok live l'
      end (the_answer a)
  end.

(** Textures.  [texs] holds the textures created and not deleted yet,
    [wrapped] the descriptors wrapped and not detached yet.  A texture is
    wrapped or drawn only while it exists; a descriptor is wrapped at most
    once at a time and detached only when wrapped; a texture is deleted only
    while it exists and while no descriptor is wrapped; at
    [halide_opengl_context_lost] and at the end no texture and no wrapped
    descriptor is left. *)
Fixpoint textures_ok (texs : list GLuint) (wrapped : list buf_var)
    (l : list answered) : Prop :=
  match l with
  | [] => texs = [] /\ wrapped = []
  | a :: l' =>
      match the_call a as c return resp c -> Prop with
      | OpenGLHelpers_create_texture _ _ _ => fun id =>
          textures_ok (id :: texs) wrapped l'
      | halide_opengl_wrap_texture _ b id => fun _ =>
          id ∈ texs /\ (b.1 ∉ wrapped) /\ textures_ok texs (b.1 :: wrapped) l'
      | halide_opengl_detach_texture _ b => fun _ =>
          b.1 ∈ wrapped /\ textures_ok texs (remove_one b.1 wrapped) l'
      | Layout_draw_texture _ id _ _ _ => fun _ =>
          id ∈ texs /\ textures_ok texs wrapped l'
      | OpenGLHelpers_delete_texture id => fun _ =>
          id ∈ texs /\ wrapped = [] /\ textures_ok (remove_one id texs) wrapped l'
      | halide_opengl_context_lost _ => fun _ =>
          texs = [] /\ wrapped = [] /\ textures_ok texs wrapped l'
      | _ => fun _ => textures_ok texs wrapped l'
      end (the_answer a)
  end.

(** ** Runtimes derived from a runtime *)

(** The answer [r] of the call [c] with its status code replaced by [s];
    answers without a status code are left as they are. *)
Definition set_status (c : call) (s : Z) : resp c -> resp c :=
  match c return resp c -> resp c with
  | sample_filter_cpu _ _ | sample_filter_opengl _ _ => fun r => (s, r.1.2, r.2)
  | halide_copy_to_host _ _
  | halide_opengl_wrap_texture _ _ _
  | halide_opengl_detach_texture _ _ => fun r => (s, r.2)
  | halide_opengl_context_lost _ => fun _ => s
  | _ => fun r => r
  end.

(** The runtime [rt] with the status code of every call replaced by what
    [status] chooses for the call and the state of the world. *)
Definition with_statuses (rt : Runtime) (status : call -> world -> Z) : Runtime :=
  {| world := world;
     respond c w := (set_status c (status c w) (respond c w).1, (respond c w).2) |}.

(** The sample runtime with an allocator that has no memory left. *)
Definition out_of_memory_respond (c : call) (w : Z) : resp c * Z :=
  match c as c' return resp c' * Z with
  | calloc _ _ => (nullptr, w)
  | c' => sample_respond 0 c' w
  end.

Definition out_of_memory_runtime : Runtime :=
  {| world := Z; respond := out_of_memory_respond |}.

(** An execution against [rt] with other status codes and one against [rt]
    itself that end alike, make the same calls and leave the same world. *)
Definition same_execution `{rt : Runtime} (status : call -> world -> Z) {A : Type}
    (e' : execution (rt := with_statuses rt status) A)
    (e : execution (rt := rt) A) : Prop :=
  result e' = result e /\ trace e' = trace e /\ final e' = final e.

(** * Properties *)

(** ** Arithmetic of [int] *)

Lemma wrap_in_range z : Int.in_range (Int.wrap z).
Proof.
  unfold Int.in_range, Int.wrap, Int.min_signed, Int.max_signed.
  pose proof (Z.mod_pos_bound (z + 2 ^ 31) (2 ^ 32) ltac:(lia)). lia.
Qed.

Lemma wrap_small z : Int.in_range z -> Int.wrap z = z.
Proof.
  unfold Int.in_range, Int.wrap, Int.min_signed, Int.max_signed. intros Hz.
  rewrite Z.mod_small by lia. lia.
Qed.

Lemma wrap_fixed z : Int.wrap z = z -> Int.in_range z.
Proof. intros <-. apply wrap_in_range. Qed.

(** ** Arithmetic of [create_buffer] *)

Lemma create_buffer_unfold width height :
  create_buffer width height =
  {| dev := 0; host := nullptr;
     extent := [width; height; 4; 0];
     stride := [4; Int.mul 4 width; 1; 0];
     min := [0; 0; 0; 0];
     elem_size := 1; host_dirty := false; dev_dirty := false |}.
Proof. reflexivity. Qed.

Example create_buffer_4x1 :
  create_buffer 4 1 =
  {| dev := 0; host := nullptr;
     extent := [4; 1; 4; 0]; stride := [4; 16; 1; 0]; min := [0; 0; 0; 0];
     elem_size := 1; host_dirty := false; dev_dirty := false |}.
Proof. reflexivity. Qed.

(** The row stride is the mathematical product exactly when the product is
    representable. *)
Lemma row_stride_exact width :
  Int.mul 4 width = 4 * width <-> Int.in_range (4 * width).
Proof.
  unfold Int.mul. split; [apply wrap_fixed | apply wrap_small].
Qed.

(** ** Executions *)

Section Executions.
Context `{rt : Runtime}.

Lemma run_bind {A B : Type} (p : prog A) (f : A -> prog B) (w : world) :
  run (p ≫= f) w =
  match result (run p w) with
  | Returned a =>
      let e := run (f a) (final (run p w)) in
      mk_execution (result e) (trace (run p w) ++ trace e) (final e)
  | Exited status =>
      mk_execution (Exited status) (trace (run p w)) (final (run p w))
  | Aborted => mk_execution Aborted (trace (run p w)) (final (run p w))
  end.
Proof.
  unfold mbind, prog_bind. revert w.
  induction p as [a | c k IH | status | ]; intros w; simpl; try reflexivity.
  - by destruct (run (f a) w).
  - rewrite IH. by destruct (result (run (k (respond c w).1) (respond c w).2)).
Qed.

(** *** The three strategies, call by call *)

Lemma run_cpu_filter_exec image_data result_data width height w :
  exists time status input_buf' output_buf' report w',
    run (run_cpu_filter image_data result_data width height) w =
    mk_execution (Returned report)
      [ Timer_start "CPU";
        sample_filter_cpu
          (addr_input (set_host (create_buffer width height) image_data))
          (addr_output (set_host (create_buffer width height) result_data));
        Timer_report time ] w'
    /\ (respond (Timer_start "CPU") w).1 = time
    /\ (respond (sample_filter_cpu
          (addr_input (set_host (create_buffer width height) image_data))
          (addr_output (set_host (create_buffer width height) result_data)))
          (respond (Timer_start "CPU") w).2).1
       = (status, input_buf', output_buf').
Proof.
  unfold run_cpu_filter. simpl.
  destruct (respond (Timer_start "CPU") w) as [time w1]. simpl.
  destruct (respond _ w1) as [[[status ib] ob] w2]. simpl.
  exists time, status, ib, ob. simpl. eauto.
Qed.

Lemma run_opengl_filter_from_host_to_host_exec image_data result_data width height w :
  exists time status input_buf' output_buf' w2 status' output_buf'' report w',
    run (run_opengl_filter_from_host_to_host
           image_data result_data width height) w =
    mk_execution (Returned report)
      [ Timer_start "OpenGL host-to-host";
        sample_filter_opengl
          (addr_input (set_host_dirty
                         (set_host (create_buffer width height) image_data) true))
          (addr_output (set_host (create_buffer width height) result_data));
        halide_copy_to_host nullptr (addr_output output_buf');
        Timer_report time ] w'
    /\ (respond (Timer_start "OpenGL host-to-host") w).1 = time
    /\ (respond (sample_filter_opengl
          (addr_input (set_host_dirty
                         (set_host (create_buffer width height) image_data) true))
          (addr_output (set_host (create_buffer width height) result_data)))
          (respond (Timer_start "OpenGL host-to-host") w).2)
       = (status, input_buf', output_buf', w2)
    /\ (respond (halide_copy_to_host nullptr (addr_output output_buf')) w2).1
       = (status', output_buf'').
Proof.
  unfold run_opengl_filter_from_host_to_host. simpl.
  destruct (respond (Timer_start _) w) as [time w1]. simpl.
  destruct (respond _ w1) as [[[status ib] ob] w2]. simpl.
  destruct (respond _ w2) as [[status' ob'] w3] eqn:E3. simpl.
  exists time, status, ib, ob, w2, status', ob'. rewrite E3. simpl. eauto 10.
Qed.

Lemma run_opengl_filter_from_texture_to_texture_exec
    input_texture_id output_texture_id width height w :
  exists time w1 s1 i1 w2 s2 o1 w3 s3 i2 o2 w4 s4 o3 w5 s5 i3 report w',
    run (run_opengl_filter_from_texture_to_texture
           input_texture_id output_texture_id width height) w =
    mk_execution (Returned report)
      [ Timer_start "OpenGL texture-to-texture";
        halide_opengl_wrap_texture nullptr
          (addr_input (create_buffer width height)) input_texture_id;
        halide_opengl_wrap_texture nullptr
          (addr_output (create_buffer width height)) output_texture_id;
        sample_filter_opengl (addr_input i1) (addr_output o1);
        halide_opengl_detach_texture nullptr (addr_output o2);
        halide_opengl_detach_texture nullptr (addr_input i2);
        Timer_report time ] w'
    /\ respond (Timer_start "OpenGL texture-to-texture") w = (time, w1)
    /\ respond (halide_opengl_wrap_texture nullptr
                  (addr_input (create_buffer width height)) input_texture_id) w1
       = (s1, i1, w2)
    /\ respond (halide_opengl_wrap_texture nullptr
                  (addr_output (create_buffer width height)) output_texture_id) w2
       = (s2, o1, w3)
    /\ respond (sample_filter_opengl (addr_input i1) (addr_output o1)) w3
       = (s3, i2, o2, w4)
    /\ respond (halide_opengl_detach_texture nullptr (addr_output o2)) w4
       = (s4, o3, w5)
    /\ (respond (halide_opengl_detach_texture nullptr (addr_input i2)) w5).1
       = (s5, i3).
Proof.
  unfold run_opengl_filter_from_texture_to_texture. simpl.
  destruct (respond (Timer_start _) w) as [time w1]. simpl.
  destruct (respond _ w1) as [[s1 i1] w2] eqn:E1. simpl.
  destruct (respond _ w2) as [[s2 o1] w3] eqn:E2. simpl.
  destruct (respond _ w3) as [[[s3 i2] o2] w4] eqn:E3. simpl.
  destruct (respond _ w4) as [[s4 o3] w5] eqn:E4. simpl.
  destruct (respond _ w5) as [[s5 i3] w6] eqn:E5. simpl.
  exists time, w1, s1, i1, w2, s2, o1, w3, s3, i2, o2, w4, s4, o3, w5, s5, i3.
  rewrite E5. simpl. eauto 12.
Qed.
(** *** [main] on a well-formed command line *)

Lemma run_bind_eq {A B : Type} (p : prog A) (f : A -> prog B) w a t w' :
  run p w = mk_execution (Returned a) t w' ->
  run (p ≫= f) w =
  mk_execution (result (run (f a) w')) (t ++ trace (run (f a) w'))
               (final (run (f a) w')).
Proof. intros E. rewrite run_bind, E. reflexivity. Qed.

Lemma execution_eta {A : Type} (e : execution A) :
  e = mk_execution (result e) (trace e) (final e).
Proof. by destruct e. Qed.

Ltac call_step r w' :=
  lazymatch goal with
  | |- context [run (call_ ?c ≫= ?f) ?w] =>
      change (run (call_ c ≫= f) w)
        with (let rw := respond c w in
              let e := run (f rw.1) rw.2 in
              mk_execution (result e) (c :: trace e) (final e));
      destruct (respond c w) as [r w'];
      cbv beta zeta; cbn [fst snd result trace final]
  end.

Ltac strategy_step H report w' :=
  lazymatch goal with
  | |- context [run (?p ≫= ?f) ?w] =>
      let Hrun := fresh "Hrun" in
      destruct (H w) as (report & w' & Hrun);
      rewrite (run_bind_eq p f w report _ w' Hrun); clear Hrun;
      cbv beta zeta; cbn [result trace final]
  end.

Lemma strategy_returns {A : Type} (p : prog A) :
  (forall w, exists a, result (run p w) = Returned a) ->
  forall w, exists a w', run p w = mk_execution (Returned a) (trace (run p w)) w'.
Proof.
  intros H w. destruct (H w) as [a Ha]. exists a, (final (run p w)).
  rewrite <- Ha. apply execution_eta.
Qed.

Lemma run_cpu_filter_returns image_data result_data width height w :
  exists report,
    result (run (run_cpu_filter image_data result_data width height) w)
    = Returned report.
Proof.
  destruct (run_cpu_filter_exec image_data result_data width height w)
    as (? & ? & ? & ? & report & ? & -> & _). by exists report.
Qed.

Lemma run_opengl_filter_from_host_to_host_returns
    image_data result_data width height w :
  exists report,
    result (run (run_opengl_filter_from_host_to_host
                   image_data result_data width height) w)
    = Returned report.
Proof.
  destruct (run_opengl_filter_from_host_to_host_exec
              image_data result_data width height w)
    as (? & ? & ? & ? & ? & ? & ? & report & ? & -> & _). by exists report.
Qed.

Lemma run_opengl_filter_from_texture_to_texture_returns
    input_texture_id output_texture_id width height w :
  exists report,
    result (run (run_opengl_filter_from_texture_to_texture
                   input_texture_id output_texture_id width height) w)
    = Returned report.
Proof.
  destruct (run_opengl_filter_from_texture_to_texture_exec
              input_texture_id output_texture_id width height w)
    as (? & ? & ? & ? & ? & ? & ? & ? & ? & ? & ? & ? & ? & ? & ? & ? & ?
        & report & ? & -> & _).
  by exists report.
Qed.

Lemma main_exec argv filename w :
  argv !! 1%nat = Some filename ->
  exists image layout glfw cpu_result_data w1 report1
         opengl_result_data w2 report2
         image_texture_id result_texture_id w3 report3 w',
    let width := image_width image in
    let height := image_height image in
    run (main 2 argv) w =
    mk_execution (Returned 0)
      ([ PNGHelpers_load filename;
         Layout_setup width height;
         GlfwHelpers_setup (window_width layout) (window_height layout);
         OpenGLHelpers_setup (dpi_scale glfw);
         Layout_draw_image UL (image_data image) width height "Input";
         calloc (size_t_of_int (Int.mul (Int.mul width height) 4)) 1 ]
       ++ trace (run (run_cpu_filter (image_data image) cpu_result_data
                        width height) w1)
       ++ [ Layout_draw_image UR cpu_result_data width height report1;
            free cpu_result_data;
            calloc (size_t_of_int (Int.mul (Int.mul width height) 4)) 1 ]
       ++ trace (run (run_opengl_filter_from_host_to_host
                        (image_data image) opengl_result_data width height) w2)
       ++ [ Layout_draw_image LL opengl_result_data width height report2;
            free opengl_result_data;
            OpenGLHelpers_create_texture width height (image_data image);
            OpenGLHelpers_create_texture width height nullptr ]
       ++ trace (run (run_opengl_filter_from_texture_to_texture
                        image_texture_id result_texture_id width height) w3)
       ++ [ Layout_draw_texture LR result_texture_id width height report3;
            OpenGLHelpers_delete_texture image_texture_id;
            OpenGLHelpers_delete_texture result_texture_id;
            halide_opengl_context_lost nullptr;
            GlfwHelpers_terminate;
            free (image_data image) ]) w'.
Proof.
  intros Hf. unfold main. rewrite Hf.
  change (negb (2 =? 2)%Z) with false. cbv iota.
  change (run (Ret tt ≫= ?f) w) with (run (f tt) w). cbv beta.
  change (run (Ret filename ≫= ?f) w) with (run (f filename) w). cbv beta.
  call_step image wa. call_step layout wb. call_step glfw wc.
  call_step u1 wd. call_step u2 we. call_step cpu_result_data w1.
  strategy_step (strategy_returns _ (run_cpu_filter_returns
    (image_data image) cpu_result_data (image_width image) (image_height image)))
    report1 wf.
  call_step u3 wg. call_step u4 wh. call_step opengl_result_data w2.
  strategy_step (strategy_returns _ (run_opengl_filter_from_host_to_host_returns
    (image_data image) opengl_result_data (image_width image)
    (image_height image))) report2 wi.
  call_step u5 wj. call_step u6 wk.
  call_step image_texture_id wl. call_step result_texture_id w3.
  strategy_step (strategy_returns _
    (run_opengl_filter_from_texture_to_texture_returns
       image_texture_id result_texture_id (image_width image)
       (image_height image))) report3 wm.
  call_step u7 wn. call_step u8 wo. call_step u9 wp.
  call_step u10 wq. call_step u11 wr. call_step u12 ws.
  exists image, layout, glfw, cpu_result_data, w1, report1,
         opengl_result_data, w2, report2,
         image_texture_id, result_texture_id, w3, report3, ws.
  reflexivity.
Qed.
End Executions.

(** ** The descriptor builder *)

(** C1, as stated, fails at width 2^29, a positive [int]: the row stride
    [4 * width] is then 2^31, which no 32-bit [int] holds, the [stride] slot
    included; the slot receives -2^31. *)
Lemma create_buffer_row_stride_overflow :
  0 < 536870912 /\ 0 < 1 /\
  Int.in_range 536870912 /\ Int.in_range 1 /\
  ~ Int.in_range (4 * 536870912) /\
  stride (create_buffer 536870912 1) !! 1%nat = Some (-2147483648) /\
  stride (create_buffer 536870912 1) !! 1%nat <> Some (4 * 536870912).
Proof.
  unfold Int.in_range, Int.min_signed, Int.max_signed.
  repeat split; try lia; try reflexivity.
  vm_compute. discriminate.
Qed.

(** C1, amended: for every width > 0 whose row stride [4 * width] fits the
    32-bit [int] and every height > 0, [create_buffer] gives strides
    [4; 4 * width; 1], extents [width; height; 4], element size 1, a null host
    pointer and a clear [host_dirty] flag.  [create_buffer] is a total
    function that makes no call. *)
Theorem create_buffer_layout (width height : Z) :
  0 < width -> 4 * width <= Int.max_signed -> 0 < height ->
  let buf := create_buffer width height in
  stride buf !! 0%nat = Some 4 /\
  stride buf !! 1%nat = Some (4 * width) /\
  stride buf !! 2%nat = Some 1 /\
  extent buf !! 0%nat = Some width /\
  extent buf !! 1%nat = Some height /\
  extent buf !! 2%nat = Some 4 /\
  elem_size buf = 1 /\
  host buf = nullptr /\
  host_dirty buf = false.
Proof.
  intros Hw Hfit Hh buf. subst buf. rewrite create_buffer_unfold. simpl.
  repeat split; try reflexivity.
  f_equal. apply row_stride_exact.
  unfold Int.in_range, Int.min_signed, Int.max_signed in *. lia.
Qed.

Lemma create_buffer_layout_witness :
  let buf := create_buffer 640 480 in
  stride buf !! 0%nat = Some 4 /\
  stride buf !! 1%nat = Some (4 * 640) /\
  stride buf !! 2%nat = Some 1 /\
  extent buf !! 0%nat = Some 640 /\
  extent buf !! 1%nat = Some 480 /\
  extent buf !! 2%nat = Some 4 /\
  elem_size buf = 1 /\
  host buf = nullptr /\
  host_dirty buf = false.
Proof.
  apply (create_buffer_layout 640 480); unfold Int.max_signed; lia.
Defined.

(** C9: whatever the width and the height, every member [create_buffer] does
    not assign is zero: the minimum on each axis, the device handle, the host
    pointer, both dirty flags and the fourth slot of the extents and of the
    strides. *)
Theorem create_buffer_rest_is_zero (width height : Z) :
  let buf := create_buffer width height in
  min buf = [0; 0; 0; 0] /\
  dev buf = 0 /\
  host buf = nullptr /\
  host_dirty buf = false /\
  dev_dirty buf = false /\
  extent buf !! 3%nat = Some 0 /\
  stride buf !! 3%nat = Some 0 /\
  min buf = min zero_buffer /\
  dev buf = dev zero_buffer.
Proof. cbv zeta. rewrite create_buffer_unfold. simpl. by repeat split. Qed.

(** ** The context hook *)

(** C8: [halide_opengl_create_context] makes one call, the activation of the
    helper's existing context, and returns 0; in particular it never asks for
    a context to be created. *)
Theorem create_context_activates_existing `{rt : Runtime} (user_context : ptr) (w : world) :
  let e := run (halide_opengl_create_context user_context) w in
  result e = Returned 0 /\
  trace e = [GlfwHelpers_set_opengl_context] /\
  Forall (fun c => is_context_creation c = false) (trace e).
Proof.
  simpl. repeat split. by repeat constructor.
Qed.

(** ** The command line *)

Lemma command_line_filename argv :
  command_line 2 argv -> exists filename, argv !! 1%nat = Some filename.
Proof.
  unfold command_line. intros Hlen.
  destruct argv as [| a0 [| a1 rest]]; simpl in Hlen; try lia.
  by exists a1.
Qed.

Lemma main_returns_0 `{rt : Runtime} argv w :
  command_line 2 argv -> result (run (main 2 argv) w) = Returned 0.
Proof.
  intros Hargs. destruct (command_line_filename argv Hargs) as [filename Hf].
  destruct (main_exec argv filename w Hf)
    as (? & ? & ? & ? & ? & ? & ? & ? & ? & ? & ? & ? & ? & ? & Hrun).
  cbv zeta in Hrun. by rewrite Hrun.
Qed.

(** C6: with an argument count other than 2, [main] writes the usage line to
    standard error, makes no other call and exits with status 1; with one
    positional argument it runs to completion and returns 0. *)
Theorem main_argument_check `{rt : Runtime} (argc : Z) (argv : list string) (w : world) :
  (argc <> 2 ->
   result (run (main argc argv) w) = Exited 1 /\
   trace (run (main argc argv) w) =
     [ cerr_put_string "Usage: "; cerr_put_cstr (argv !! 0%nat);
       cerr_put_string " filename"; cerr_endl ]) /\
  (argc = 2 -> command_line argc argv ->
   result (run (main argc argv) w) = Returned 0).
Proof.
  split.
  - intros Hargc. unfold main.
    destruct (argc =? 2)%Z eqn:E; [apply Z.eqb_eq in E; contradiction |].
    simpl. by split.
  - intros -> Hargs. by apply main_returns_0.
Qed.

Lemma main_argument_check_witness :
  (result (run (rt := sample_runtime 0) (main 1 ["opengl_demo"]) 0)
     = Exited 1 /\
   trace (run (rt := sample_runtime 0) (main 1 ["opengl_demo"]) 0) =
     [ cerr_put_string "Usage: "; cerr_put_cstr (Some "opengl_demo");
       cerr_put_string " filename"; cerr_endl ]) /\
  result (run (rt := sample_runtime 0)
            (main 2 ["opengl_demo"; "image.png"]) 0) = Returned 0.
Proof.
  split.
  - apply (proj1 (main_argument_check (rt := sample_runtime 0)
                    1 ["opengl_demo"] 0)). lia.
  - apply (proj2 (main_argument_check (rt := sample_runtime 0)
                    2 ["opengl_demo"; "image.png"] 0)); reflexivity.
Defined.

(** ** The strategies *)

(** The texture strategy on the sample runtime: textures 1 and 2, a 4x1
    image, timer token 0. *)
Example texture_to_texture_sample_run :
  run (rt := sample_runtime 0)
      (run_opengl_filter_from_texture_to_texture 1 2 4 1) 0 =
  @mk_execution (sample_runtime 0) string (Returned "report")
    [ Timer_start "OpenGL texture-to-texture";
      halide_opengl_wrap_texture nullptr (addr_input (create_buffer 4 1)) 1;
      halide_opengl_wrap_texture nullptr (addr_output (create_buffer 4 1)) 2;
      sample_filter_opengl (addr_input (set_dev (create_buffer 4 1) 1))
                           (addr_output (set_dev (create_buffer 4 1) 2));
      halide_opengl_detach_texture nullptr
        (addr_output (set_dev (create_buffer 4 1) 2));
      halide_opengl_detach_texture nullptr
        (addr_input (set_dev (create_buffer 4 1) 1));
      Timer_report 0 ] 1.
Proof. reflexivity. Qed.

(** C5: [run_cpu_filter] makes three calls: it starts the timer, invokes the
    CPU filter and asks for the report.  The filter receives the input
    descriptor pointing at the image data and the output descriptor pointing
    at the result buffer, both with [host_dirty] clear; no descriptor is
    handed out with the flag set, and no wrap, detach or copy-to-host call is
    made. *)
Theorem run_cpu_filter_host_resident `{rt : Runtime}
    (image_data result_data : ptr) (width height : Z) (w : world) :
  let t := trace (run (run_cpu_filter image_data result_data width height) w) in
  exists time input_buf output_buf,
    t = [ Timer_start "CPU";
          sample_filter_cpu (addr_input input_buf) (addr_output output_buf);
          Timer_report time ] /\
    host input_buf = image_data /\
    host output_buf = result_data /\
    host_dirty input_buf = false /\
    host_dirty output_buf = false /\
    all_bufs (fun b => host_dirty b = false) t /\
    Forall (fun c => is_device_op c = false) t.
Proof.
  destruct (run_cpu_filter_exec image_data result_data width height w)
    as (time & status & ib & ob & report & w' & Hrun & _).
  cbv zeta. rewrite Hrun. cbn [trace].
  exists time, (set_host (create_buffer width height) image_data),
         (set_host (create_buffer width height) result_data).
  repeat split; unfold all_bufs; repeat constructor.
Qed.

(** C2: [run_opengl_filter_from_host_to_host] makes four calls: timer start,
    the OpenGL filter, copy-to-host, timer report.  The filter receives the
    input descriptor with [host_dirty] set and the output descriptor with the
    flag clear; the copy-to-host call comes after the filter, receives the
    output descriptor as the filter left it, returns before the strategy goes
    on, and is the last call that receives the output descriptor. *)
Theorem host_to_host_marks_and_syncs `{rt : Runtime}
    (image_data result_data : ptr) (width height : Z) (w : world) :
  let e := run (run_opengl_filter_from_host_to_host
                  image_data result_data width height) w in
  exists time input_buf output_buf status input_buf' output_buf' w1 w2 report,
    trace e =
      [ Timer_start "OpenGL host-to-host";
        sample_filter_opengl (addr_input input_buf) (addr_output output_buf);
        halide_copy_to_host nullptr (addr_output output_buf');
        Timer_report time ] /\
    host input_buf = image_data /\
    host_dirty input_buf = true /\
    host output_buf = result_data /\
    host_dirty output_buf = false /\
    respond (sample_filter_opengl (addr_input input_buf) (addr_output output_buf)) w1
      = (status, input_buf', output_buf', w2) /\
    last_touch output_buf_var (trace e)
      = Some (halide_copy_to_host nullptr (addr_output output_buf')) /\
    result e = Returned report.
Proof.
  destruct (run_opengl_filter_from_host_to_host_exec
              image_data result_data width height w)
    as (time & status & ib & ob & w2 & status' & ob' & report & w' & Hrun
        & _ & Hfilter & _).
  cbv zeta. rewrite Hrun. cbn [trace result].
  eexists time, _, _, status, ib, ob, _, w2, report.
  split; [reflexivity |]. split; [reflexivity |]. split; [reflexivity |].
  split; [reflexivity |]. split; [reflexivity |].
  split; [exact Hfilter |]. split; reflexivity.
Qed.

(** What a runtime that keeps [f] leaves in the descriptors of the
    texture-to-texture strategy. *)
Lemma texture_to_texture_kept `{rt : Runtime} {X : Type} (f : buffer_t -> X)
    (tex_in tex_out : GLuint) (b : buffer_t) w1 s1 i1 w2 s2 o1 w3 s3 i2 o2 w4 :
  keeps f ->
  respond (halide_opengl_wrap_texture nullptr (addr_input b) tex_in) w1
    = (s1, i1, w2) ->
  respond (halide_opengl_wrap_texture nullptr (addr_output b) tex_out) w2
    = (s2, o1, w3) ->
  respond (sample_filter_opengl (addr_input i1) (addr_output o1)) w3
    = (s3, i2, o2, w4) ->
  f i1 = f b /\ f o1 = f b /\ f i2 = f b /\ f o2 = f b.
Proof.
  intros Hk E1 E2 E3.
  pose proof (Hk (halide_opengl_wrap_texture nullptr (addr_input b) tex_in) w1)
    as K1.
  pose proof (Hk (halide_opengl_wrap_texture nullptr (addr_output b) tex_out) w2)
    as K2.
  pose proof (Hk (sample_filter_opengl (addr_input i1) (addr_output o1)) w3)
    as K3.
  rewrite E1 in K1. rewrite E2 in K2. rewrite E3 in K3. simpl in K1, K2, K3.
  injection K1 as K1. injection K2 as K2. injection K3 as K3i K3o.
  repeat split; congruence.
Qed.

(** C3: [run_opengl_filter_from_texture_to_texture] makes seven calls: timer
    start, wrap of the input descriptor around the input texture, wrap of the
    output descriptor around the output texture, the OpenGL filter, detach of
    the output descriptor, detach of the input descriptor, timer report.  The
    descriptors go to the wraps as [create_buffer] built them, with a null
    host pointer, and the strategy assigns no field afterwards: with a
    runtime that leaves the host pointer of the descriptors it receives
    alone, every descriptor handed out in the run has a null host pointer. *)
Theorem texture_to_texture_wraps_and_detaches `{rt : Runtime}
    (input_texture_id output_texture_id : GLuint) (width height : Z) (w : world) :
  let t := trace (run (run_opengl_filter_from_texture_to_texture
                         input_texture_id output_texture_id width height) w) in
  (exists time i1 o1 i2 o2,
     t = [ Timer_start "OpenGL texture-to-texture";
           halide_opengl_wrap_texture nullptr
             (addr_input (create_buffer width height)) input_texture_id;
           halide_opengl_wrap_texture nullptr
             (addr_output (create_buffer width height)) output_texture_id;
           sample_filter_opengl (addr_input i1) (addr_output o1);
           halide_opengl_detach_texture nullptr (addr_output o2);
           halide_opengl_detach_texture nullptr (addr_input i2);
           Timer_report time ]) /\
  host (create_buffer width height) = nullptr /\
  (keeps host -> all_bufs (fun b => host b = nullptr) t).
Proof.
  destruct (run_opengl_filter_from_texture_to_texture_exec
              input_texture_id output_texture_id width height w)
    as (time & w1 & s1 & i1 & w2 & s2 & o1 & w3 & s3 & i2 & o2 & w4 & s4 & o3
        & w5 & s5 & i3 & report & w' & Hrun & _ & E1 & E2 & E3 & _).
  cbv zeta. rewrite Hrun. cbn [trace].
  split; [by exists time, i1, o1, i2, o2 |]. split; [reflexivity |].
  intros Hk.
  destruct (texture_to_texture_kept host _ _ _ _ _ _ _ _ _ _ _ _ _ _ Hk E1 E2 E3)
    as (Hi1 & Ho1 & Hi2 & Ho2).
  unfold all_bufs. repeat constructor; simpl; assumption.
Qed.

Lemma sample_runtime_keeps {X : Type} (f : buffer_t -> X) (status : Z) :
  (forall buf d, f (set_dev buf d) = f buf) ->
  keeps (rt := sample_runtime status) f.
Proof.
  intros Hdev c w. destruct c; simpl; try reflexivity; by rewrite Hdev.
Qed.

Lemma texture_to_texture_wraps_and_detaches_witness :
  all_bufs (fun b => host b = nullptr)
    (trace (run (rt := sample_runtime 0)
              (run_opengl_filter_from_texture_to_texture 1 2 4 1) 0)).
Proof.
  apply (texture_to_texture_wraps_and_detaches (rt := sample_runtime 0) 1 2 4 1 0).
  apply sample_runtime_keeps. reflexivity.
Defined.

(** C10: each strategy builds both descriptors with [create_buffer] at the
    same width and height and invokes the filter once.  In the two host
    strategies the filter receives them with identical extents, strides and
    element size.  In the texture strategy each descriptor passes through a
    wrap first; the wraps receive identical descriptors, and with a runtime
    whose calls leave the shape of the descriptors they receive alone the
    filter receives identical shapes there too. *)
Theorem strategies_invoke_on_same_shape `{rt : Runtime}
    (image_data result_data : ptr) (input_texture_id output_texture_id : GLuint)
    (width height : Z) (w : world) :
  let t1 := trace (run (run_cpu_filter image_data result_data width height) w) in
  let t2 := trace (run (run_opengl_filter_from_host_to_host
                          image_data result_data width height) w) in
  let t3 := trace (run (run_opengl_filter_from_texture_to_texture
                          input_texture_id output_texture_id width height) w) in
  (Forall same_shape_invocation t1 /\ length (filter (fun c => is_invoke c = true) t1) = 1%nat) /\
  (Forall same_shape_invocation t2 /\ length (filter (fun c => is_invoke c = true) t2) = 1%nat) /\
  length (filter (fun c => is_invoke c = true) t3) = 1%nat /\
  Forall (fun c => is_wrap c = true ->
                   Forall (fun b : buf_ref => b.2 = create_buffer width height)
                          (call_bufs c)) t3 /\
  (keeps shape -> Forall same_shape_invocation t3).
Proof.
  destruct (run_cpu_filter_exec image_data result_data width height w)
    as (? & ? & ? & ? & ? & ? & Hrun1 & _).
  destruct (run_opengl_filter_from_host_to_host_exec
              image_data result_data width height w)
    as (? & ? & ? & ? & ? & ? & ? & ? & ? & Hrun2 & _).
  destruct (run_opengl_filter_from_texture_to_texture_exec
              input_texture_id output_texture_id width height w)
    as (time & w1 & s1 & i1 & w2 & s2 & o1 & w3 & s3 & i2 & o2 & w4 & s4 & o3
        & w5 & s5 & i3 & report & w' & Hrun3 & _ & E1 & E2 & E3 & _).
  cbv zeta. rewrite Hrun1, Hrun2, Hrun3. cbn [trace].
  split; [split; [by repeat constructor | reflexivity] |].
  split; [split; [by repeat constructor | reflexivity] |].
  split; [reflexivity |].
  split.
  - repeat constructor; simpl; intros; try discriminate; by repeat constructor.
  - intros Hk.
    destruct (texture_to_texture_kept shape _ _ _ _ _ _ _ _ _ _ _ _ _ _ Hk E1 E2 E3)
      as (Hi1 & Ho1 & _).
    repeat constructor; simpl. congruence.
Qed.

Lemma strategies_invoke_on_same_shape_witness :
  Forall same_shape_invocation
    (trace (run (rt := sample_runtime 0)
              (run_opengl_filter_from_texture_to_texture 1 2 4 1) 0)).
Proof.
  apply (strategies_invoke_on_same_shape (rt := sample_runtime 0) 4096 8192 1 2 4 1 0).
  apply sample_runtime_keeps. reflexivity.
Defined.

(** ** Shutdown *)

(** The calls of [main] on a well-formed command line, one by one. *)
Lemma main_trace `{rt : Runtime} argv w :
  command_line 2 argv ->
  exists filename image layout glfw cpu_result_data report1 time1 i1 o1
         opengl_result_data report2 time2 i2 o2 o2'
         image_texture_id result_texture_id report3 time3 i3 o3 i3' o3',
    let width := image_width image in
    let height := image_height image in
    argv !! 1%nat = Some filename /\
    trace (run (main 2 argv) w) =
      [ PNGHelpers_load filename;
        Layout_setup width height;
        GlfwHelpers_setup (window_width layout) (window_height layout);
        OpenGLHelpers_setup (dpi_scale glfw);
        Layout_draw_image UL (image_data image) width height "Input";
        calloc (size_t_of_int (Int.mul (Int.mul width height) 4)) 1;
        Timer_start "CPU";
        sample_filter_cpu (addr_input i1) (addr_output o1);
        Timer_report time1;
        Layout_draw_image UR cpu_result_data width height report1;
        free cpu_result_data;
        calloc (size_t_of_int (Int.mul (Int.mul width height) 4)) 1;
        Timer_start "OpenGL host-to-host";
        sample_filter_opengl (addr_input i2) (addr_output o2);
        halide_copy_to_host nullptr (addr_output o2');
        Timer_report time2;
        Layout_draw_image LL opengl_result_data width height report2;
        free opengl_result_data;
        OpenGLHelpers_create_texture width height (image_data image);
        OpenGLHelpers_create_texture width height nullptr;
        Timer_start "OpenGL texture-to-texture";
        halide_opengl_wrap_texture nullptr
          (addr_input (create_buffer width height)) image_texture_id;
        halide_opengl_wrap_texture nullptr
          (addr_output (create_buffer width height)) result_texture_id;
        sample_filter_opengl (addr_input i3) (addr_output o3);
        halide_opengl_detach_texture nullptr (addr_output o3');
        halide_opengl_detach_texture nullptr (addr_input i3');
        Timer_report time3;
        Layout_draw_texture LR result_texture_id width height report3;
        OpenGLHelpers_delete_texture image_texture_id;
        OpenGLHelpers_delete_texture result_texture_id;
        halide_opengl_context_lost nullptr;
        GlfwHelpers_terminate;
        free (image_data image) ].
Proof.
  intros Hargs. destruct (command_line_filename argv Hargs) as [filename Hf].
  destruct (main_exec argv filename w Hf)
    as (image & layout & glfw & cpu_result_data & w1 & report1
        & opengl_result_data & w2 & report2
        & image_texture_id & result_texture_id & w3 & report3 & w' & Hrun).
  cbv zeta in Hrun. rewrite Hrun. cbn [trace]. clear Hrun.
  destruct (run_cpu_filter_exec (image_data image) cpu_result_data
              (image_width image) (image_height image) w1)
    as (time1 & ? & ? & ? & ? & ? & -> & _).
  destruct (run_opengl_filter_from_host_to_host_exec (image_data image)
              opengl_result_data (image_width image) (image_height image) w2)
    as (time2 & ? & ? & o2' & ? & ? & ? & ? & ? & -> & _).
  destruct (run_opengl_filter_from_texture_to_texture_exec
              image_texture_id result_texture_id
              (image_width image) (image_height image) w3)
    as (time3 & ? & ? & i3 & ? & ? & o3 & ? & ? & i3' & o3' & ? & ? & ?
        & ? & ? & ? & ? & ? & -> & _).
  cbn [trace app].
  eexists filename, image, layout, glfw, cpu_result_data, report1, time1, _, _,
          opengl_result_data, report2, time2, _, _, o2',
          image_texture_id, result_texture_id, report3, time3, i3, o3, i3', o3'.
  cbv zeta. split; [exact Hf | reflexivity].
Qed.

(** C7: in a run of [main] that gets past the argument check, the teardown
    [halide_opengl_context_lost] is called exactly once; the three filter
    invocations and every wrap and detach come before it, none after it; and
    the call that follows it immediately is [GlfwHelpers::terminate], which
    is not called before. *)
Theorem context_lost_once_before_terminate `{rt : Runtime}
    (argc : Z) (argv : list string) (w : world) :
  argc = 2 -> command_line argc argv ->
  exists pre post,
    trace (run (main argc argv) w)
      = (pre ++ halide_opengl_context_lost nullptr :: GlfwHelpers_terminate :: post)%list /\
    Forall (fun c => is_context_lost c = false) (pre ++ GlfwHelpers_terminate :: post)%list /\
    Forall (fun c => is_terminate c = false) pre /\
    length (filter (fun c => is_invoke c = true) pre) = 3%nat /\
    length (filter (fun c => is_wrap c = true) pre) = 2%nat /\
    length (filter (fun c => is_detach c = true) pre) = 2%nat /\
    Forall (fun c => is_invoke c = false /\ is_wrap c = false
                     /\ is_detach c = false /\ is_copy_to_host c = false)
           (GlfwHelpers_terminate :: post).
Proof.
  intros -> Hargs.
  destruct (main_trace argv w Hargs)
    as (filename & image & layout & glfw & cpu_result_data & report1 & time1
        & i1 & o1 & opengl_result_data & report2 & time2 & i2 & o2 & o2'
        & image_texture_id & result_texture_id & report3 & time3 & i3 & o3
        & i3' & o3' & _ & Ht).
  cbv zeta in Ht. rewrite Ht.
  match goal with
  | |- exists pre post, ?t = _ /\ _ => exists (take 30 t), (drop 32 t)
  end.
  cbn [take drop app].
  split; [reflexivity |].
  split; [by repeat constructor |].
  split; [by repeat constructor |].
  split; [reflexivity |]. split; [reflexivity |]. split; [reflexivity |].
  by repeat constructor.
Qed.

Lemma context_lost_once_before_terminate_witness :
  exists pre post,
    trace (run (rt := sample_runtime 0) (main 2 ["opengl_demo"; "image.png"]) 0)
      = (pre ++ halide_opengl_context_lost nullptr :: GlfwHelpers_terminate :: post)%list /\
    Forall (fun c => is_context_lost c = false) (pre ++ GlfwHelpers_terminate :: post)%list /\
    Forall (fun c => is_terminate c = false) pre /\
    length (filter (fun c => is_invoke c = true) pre) = 3%nat /\
    length (filter (fun c => is_wrap c = true) pre) = 2%nat /\
    length (filter (fun c => is_detach c = true) pre) = 2%nat /\
    Forall (fun c => is_invoke c = false /\ is_wrap c = false
                     /\ is_detach c = false /\ is_copy_to_host c = false)
           (GlfwHelpers_terminate :: post).
Proof.
  apply (context_lost_once_before_terminate (rt := sample_runtime 0)
           2 ["opengl_demo"; "image.png"] 0); reflexivity.
Defined.

(** ** Status codes *)

(** C4, as stated, fails: with filters that return status 1 the CPU strategy
    still asks for its report and returns it, and [main] still makes all three
    invocations, runs to its last call and returns 0. *)
Lemma nonzero_status_run_continues :
  let c := sample_filter_cpu (addr_input (set_host (create_buffer 4 1) 4096))
                             (addr_output (set_host (create_buffer 4 1) 8192)) in
  let e := run (rt := sample_runtime 1) (run_cpu_filter 4096 8192 4 1) 0 in
  let m := run (rt := sample_runtime 1) (main 2 ["opengl_demo"; "image.png"]) 0 in
  resp_status c (respond (Runtime := sample_runtime 1) c 1).1 = Some 1 /\
  1 <> 0 /\
  trace e = [Timer_start "CPU"; c; Timer_report 0] /\
  result e = Returned "report" /\
  result m = Returned 0 /\
  length (filter (fun c => is_invoke c = true) (trace m)) = 3%nat /\
  last (trace m) = Some (free 4096).
Proof. cbv zeta. repeat split; try reflexivity. lia. Qed.

(** C4, amended: every invocation of a compiled filter returns a status code,
    and the core discards it.  Whatever status the filter returns, the CPU
    strategy goes on to the timer report, the host-to-host strategy to
    copy-to-host and the timer report, the texture strategy to the two
    detaches and the timer report, each returning its report; and a run of
    [main] on a well-formed command line returns 0. *)
Theorem filter_status_is_discarded `{rt : Runtime}
    (image_data result_data : ptr) (input_texture_id output_texture_id : GLuint)
    (width height : Z) (argv : list string) (w : world) :
  let e1 := run (run_cpu_filter image_data result_data width height) w in
  let e2 := run (run_opengl_filter_from_host_to_host
                   image_data result_data width height) w in
  let e3 := run (run_opengl_filter_from_texture_to_texture
                   input_texture_id output_texture_id width height) w in
  (exists time i o w1 status i' o' report,
     trace e1 = [Timer_start "CPU"; sample_filter_cpu i o; Timer_report time] /\
     resp_status (sample_filter_cpu i o) (respond (sample_filter_cpu i o) w1).1
       = Some status /\
     (respond (sample_filter_cpu i o) w1).1 = (status, i', o') /\
     result e1 = Returned report) /\
  (exists time i o w1 status i' o' report,
     trace e2 = [ Timer_start "OpenGL host-to-host"; sample_filter_opengl i o;
                  halide_copy_to_host nullptr (addr_output o');
                  Timer_report time ] /\
     (respond (sample_filter_opengl i o) w1).1 = (status, i', o') /\
     result e2 = Returned report) /\
  (exists time wi wo i o w1 status i' o' report,
     trace e3 = [ Timer_start "OpenGL texture-to-texture"; wi; wo;
                  sample_filter_opengl i o;
                  halide_opengl_detach_texture nullptr (addr_output o');
                  halide_opengl_detach_texture nullptr (addr_input i');
                  Timer_report time ] /\
     (respond (sample_filter_opengl i o) w1).1 = (status, i', o') /\
     result e3 = Returned report) /\
  (command_line 2 argv -> result (run (main 2 argv) w) = Returned 0).
Proof.
  cbv zeta. repeat apply conj.
  - destruct (run_cpu_filter_exec image_data result_data width height w)
      as (time & status & ib & ob & report & w' & Hrun & _ & Hfilter).
    rewrite Hrun. cbn [trace result].
    eexists time, _, _, _, status, ib, ob, report.
    split; [reflexivity |]. split; [| split; [exact Hfilter | reflexivity]].
    cbn [resp_status]. by rewrite Hfilter.
  - destruct (run_opengl_filter_from_host_to_host_exec
                image_data result_data width height w)
      as (time & status & ib & ob & w2 & status' & ob' & report & w' & Hrun
          & _ & Hfilter & _).
    rewrite Hrun. cbn [trace result].
    eexists time, _, _, _, status, ib, ob, report.
    split; [reflexivity |]. split; [by rewrite Hfilter | reflexivity].
  - destruct (run_opengl_filter_from_texture_to_texture_exec
                input_texture_id output_texture_id width height w)
      as (time & w1 & s1 & i1 & w2 & s2 & o1 & w3 & s3 & i2 & o2 & w4 & s4 & o3
          & w5 & s5 & i3 & report & w' & Hrun & _ & _ & _ & Hfilter & _).
    rewrite Hrun. cbn [trace result].
    eexists time, _, _, _, _, w3, s3, i2, o2, report.
    split; [reflexivity |]. split; [by rewrite Hfilter | reflexivity].
  - apply main_returns_0.
Qed.

Lemma filter_status_is_discarded_witness :
  result (run (rt := sample_runtime 1) (main 2 ["opengl_demo"; "image.png"]) 0)
  = Returned 0.
Proof.
  apply (filter_status_is_discarded (rt := sample_runtime 1)
           4096 8192 1 2 4 1 ["opengl_demo"; "image.png"] 0).
  reflexivity.
Defined.

(** * Further properties of main.cpp *)

(** ** Transcripts of the strategies and of [main] *)

Section Transcripts.
Context `{rt : Runtime}.

Lemma transcript_calls {A : Type} (p : prog A) (w : world) :
  the_call <$> transcript p w = trace (run p w).
Proof.
  revert w. induction p as [a | c k IH | status | ]; intros w; simpl;
    try reflexivity.
  by rewrite IH.
Qed.

Lemma transcript_bind {A B : Type} (p : prog A) (f : A -> prog B) (w : world) :
  transcript (p ≫= f) w =
  (transcript p w ++
   match result (run p w) with
   | Returned a => transcript (f a) (final (run p w))
   | _ => []
   end)%list.
Proof.
  unfold mbind, prog_bind. revert w.
  induction p as [a | c k IH | status | ]; intros w; simpl; try reflexivity.
  by rewrite IH.
Qed.

Lemma run_cpu_filter_transcript image_data result_data width height w :
  exists time status input_buf' output_buf' report,
    transcript (run_cpu_filter image_data result_data width height) w =
      [ Timer_start "CPU" ~> time;
        sample_filter_cpu
          (addr_input (set_host (create_buffer width height) image_data))
          (addr_output (set_host (create_buffer width height) result_data))
          ~> (status, input_buf', output_buf');
        Timer_report time ~> report ] /\
    result (run (run_cpu_filter image_data result_data width height) w)
      = Returned report.
Proof.
  unfold run_cpu_filter. simpl.
  destruct (respond (Timer_start "CPU") w) as [time w1]. simpl.
  destruct (respond _ w1) as [[[status ib] ob] w2]. simpl.
  by exists time, status, ib, ob, (respond (Timer_report time) w2).1.
Qed.

Lemma run_opengl_filter_from_host_to_host_transcript
    image_data result_data width height w :
  exists time status input_buf' output_buf' status' output_buf'' report,
    transcript (run_opengl_filter_from_host_to_host
                  image_data result_data width height) w =
      [ Timer_start "OpenGL host-to-host" ~> time;
        sample_filter_opengl
          (addr_input (set_host_dirty
                         (set_host (create_buffer width height) image_data) true))
          (addr_output (set_host (create_buffer width height) result_data))
          ~> (status, input_buf', output_buf');
        halide_copy_to_host nullptr (addr_output output_buf')
          ~> (status', output_buf'');
        Timer_report time ~> report ] /\
    result (run (run_opengl_filter_from_host_to_host
                   image_data result_data width height) w)
      = Returned report.
Proof.
  unfold run_opengl_filter_from_host_to_host. simpl.
  destruct (respond (Timer_start _) w) as [time w1]. simpl.
  destruct (respond _ w1) as [[[status ib] ob] w2]. simpl.
  destruct (respond _ w2) as [[status' ob'] w3]. simpl.
  by exists time, status, ib, ob, status', ob', (respond (Timer_report time) w3).1.
Qed.

Lemma run_opengl_filter_from_texture_to_texture_transcript
    input_texture_id output_texture_id width height w :
  exists time s1 i1 s2 o1 s3 i2 o2 s4 o3 s5 i3 report,
    transcript (run_opengl_filter_from_texture_to_texture
                  input_texture_id output_texture_id width height) w =
      [ Timer_start "OpenGL texture-to-texture" ~> time;
        halide_opengl_wrap_texture nullptr
          (addr_input (create_buffer width height)) input_texture_id ~> (s1, i1);
        halide_opengl_wrap_texture nullptr
          (addr_output (create_buffer width height)) output_texture_id ~> (s2, o1);
        sample_filter_opengl (addr_input i1) (addr_output o1) ~> (s3, i2, o2);
        halide_opengl_detach_texture nullptr (addr_output o2) ~> (s4, o3);
        halide_opengl_detach_texture nullptr (addr_input i2) ~> (s5, i3);
        Timer_report time ~> report ] /\
    result (run (run_opengl_filter_from_texture_to_texture
                   input_texture_id output_texture_id width height) w)
      = Returned report.
Proof.
  unfold run_opengl_filter_from_texture_to_texture. simpl.
  destruct (respond (Timer_start _) w) as [time w1]. simpl.
  destruct (respond _ w1) as [[s1 i1] w2]. simpl.
  destruct (respond _ w2) as [[s2 o1] w3]. simpl.
  destruct (respond _ w3) as [[[s3 i2] o2] w4]. simpl.
  destruct (respond _ w4) as [[s4 o3] w5]. simpl.
  destruct (respond _ w5) as [[s5 i3] w6]. simpl.
  by exists time, s1, i1, s2, o1, s3, i2, o2, s4, o3, s5, i3,
            (respond (Timer_report time) w6).1.
Qed.

Ltac answer_step r w' :=
  lazymatch goal with
  | |- context [transcript (call_ ?c ≫= ?f) ?w] =>
      change (transcript (call_ c ≫= f) w)
        with (let rw := respond c w in
              (c ~> rw.1) :: transcript (f rw.1) rw.2);
      destruct (respond c w) as [r w'];
      cbv beta zeta; cbn [fst snd]
  end.

Ltac strategy_answers Ht Hr w' :=
  lazymatch goal with
  | |- context [transcript (?p ≫= ?f) ?w] =>
      rewrite (transcript_bind p f w), Ht, Hr; clear Ht Hr;
      generalize (final (run p w)); intros w';
      cbv beta zeta; cbn [app]
  end.

(** The answered calls of [main] on a command line with a file name. *)
Lemma main_transcript argv filename w :
  argv !! 1%nat = Some filename ->
  exists layout glfw p1 t1 a1 r1 p2 t2 a2 s2 o2 r2 tex1 tex2
         t3 sa i1 sb o1 sc i3 o3 sd o4 se i4 r3 sf,
    let image := (respond (PNGHelpers_load filename) w).1 in
    let width := image_width image in
    let height := image_height image in
    let data := image_data image in
    let buf := create_buffer width height in
    transcript (main 2 argv) w =
      [ PNGHelpers_load filename ~> image;
        Layout_setup width height ~> layout;
        GlfwHelpers_setup (window_width layout) (window_height layout) ~> glfw;
        OpenGLHelpers_setup (dpi_scale glfw) ~> tt;
        Layout_draw_image UL data width height "Input" ~> tt;
        calloc (size_t_of_int (Int.mul (Int.mul width height) 4)) 1 ~> p1;
        Timer_start "CPU" ~> t1;
        sample_filter_cpu (addr_input (set_host buf data))
                          (addr_output (set_host buf p1)) ~> a1;
        Timer_report t1 ~> r1;
        Layout_draw_image UR p1 width height r1 ~> tt;
        free p1 ~> tt;
        calloc (size_t_of_int (Int.mul (Int.mul width height) 4)) 1 ~> p2;
        Timer_start "OpenGL host-to-host" ~> t2;
        sample_filter_opengl
          (addr_input (set_host_dirty (set_host buf data) true))
          (addr_output (set_host buf p2)) ~> a2;
        halide_copy_to_host nullptr (addr_output a2.2) ~> (s2, o2);
        Timer_report t2 ~> r2;
        Layout_draw_image LL p2 width height r2 ~> tt;
        free p2 ~> tt;
        OpenGLHelpers_create_texture width height data ~> tex1;
        OpenGLHelpers_create_texture width height nullptr ~> tex2;
        Timer_start "OpenGL texture-to-texture" ~> t3;
        halide_opengl_wrap_texture nullptr (addr_input buf) tex1 ~> (sa, i1);
        halide_opengl_wrap_texture nullptr (addr_output buf) tex2 ~> (sb, o1);
        sample_filter_opengl (addr_input i1) (addr_output o1) ~> (sc, i3, o3);
        halide_opengl_detach_texture nullptr (addr_output o3) ~> (sd, o4);
        halide_opengl_detach_texture nullptr (addr_input i3) ~> (se, i4);
        Timer_report t3 ~> r3;
        Layout_draw_texture LR tex2 width height r3 ~> tt;
        OpenGLHelpers_delete_texture tex1 ~> tt;
        OpenGLHelpers_delete_texture tex2 ~> tt;
        halide_opengl_context_lost nullptr ~> sf;
        GlfwHelpers_terminate ~> tt;
        free data ~> tt ].
Proof.
  intros Hf. unfold main. rewrite Hf.
  change (negb (2 =? 2)%Z) with false. cbv iota.
  change (transcript (Ret tt ≫= ?f) w) with (transcript (f tt) w). cbv beta.
  change (transcript (Ret filename ≫= ?f) w) with (transcript (f filename) w).
  cbv beta.
  answer_step image wa. answer_step layout wb. answer_step glfw wc.
  answer_step u1 wd. answer_step u2 we. answer_step p1 w1.
  destruct (run_cpu_filter_transcript
              (image_data image) p1 (image_width image) (image_height image) w1)
    as (t1 & s1 & i1' & o1' & r1 & Ht & Hr).
  strategy_answers Ht Hr wf.
  answer_step u3 wg. answer_step u4 wh. answer_step p2 w2.
  destruct (run_opengl_filter_from_host_to_host_transcript
              (image_data image) p2 (image_width image) (image_height image) w2)
    as (t2 & s2 & i2' & o2' & s2' & o2'' & r2 & Ht & Hr).
  strategy_answers Ht Hr wi.
  answer_step u5 wj. answer_step u6 wk.
  answer_step tex1 wl. answer_step tex2 w3.
  destruct (run_opengl_filter_from_texture_to_texture_transcript
              tex1 tex2 (image_width image) (image_height image) w3)
    as (t3 & sa & i1 & sb & o1 & sc & i3 & o3 & sd & o4 & se & i4 & r3 & Ht & Hr).
  strategy_answers Ht Hr wm.
  answer_step u7 wn. answer_step u8 wo. answer_step u9 wp.
  answer_step sf wq. answer_step u11 wr. answer_step u12 ws.
  destruct u1, u2, u3, u4, u5, u6, u7, u8, u9, u11, u12.
  exists layout, glfw, p1, t1, (s1, i1', o1'), r1,
         p2, t2, (s2, i2', o2'), s2', o2'', r2, tex1, tex2,
         t3, sa, i1, sb, o1, sc, i3, o3, sd, o4, se, i4, r3, sf.
  reflexivity.
Qed.

End Transcripts.

(** ** The layout the descriptor describes *)

(** X1: the row stride slot always holds a representable value congruent to
    [4 * width] modulo 2^32, and it holds [4 * width] itself exactly when
    -2^29 <= width <= 2^29 - 1; outside that range of widths the descriptor
    is built all the same, with a row stride that is off by a multiple of
    2^32. *)
Theorem create_buffer_row_stride_exact (width height : Z) :
  exists s,
    stride (create_buffer width height) !! 1%nat = Some s /\
    Int.in_range s /\
    (s - 4 * width) mod 2 ^ 32 = 0 /\
    (s = 4 * width <-> - 2 ^ 29 <= width <= 2 ^ 29 - 1).
Proof.
  exists (Int.mul 4 width). rewrite create_buffer_unfold. simpl.
  split; [reflexivity |]. split; [apply wrap_in_range |]. split.
  - unfold Int.mul, Int.wrap.
    replace ((4 * width + 2 ^ 31) mod 2 ^ 32 - 2 ^ 31 - 4 * width)
      with ((4 * width + 2 ^ 31) mod 2 ^ 32 - (4 * width + 2 ^ 31)) by lia.
    rewrite Zminus_mod, Zmod_mod, <- Zminus_mod, Z.sub_diag. reflexivity.
  - rewrite row_stride_exact.
    unfold Int.in_range, Int.min_signed, Int.max_signed. lia.
Qed.

Lemma create_buffer_element_layout (width height x y c : Z) :
  0 < width -> 4 * width <= Int.max_signed ->
  in_extent (create_buffer width height) x y c ->
  element_offset (create_buffer width height) x y c
    = Some (4 * (y * width + x) + c) /\
  0 <= 4 * (y * width + x) + c < 4 * width * height.
Proof.
  intros Hw Hfit. rewrite create_buffer_unfold.
  unfold in_extent, element_offset. simpl.
  assert (Int.mul 4 width = 4 * width) as ->.
  { apply row_stride_exact.
    unfold Int.in_range, Int.min_signed, Int.max_signed in *. lia. }
  intros (Hx & Hy & Hc). split; [f_equal; lia | nia].
Qed.

(** X2: for a width whose row stride fits, the descriptor describes the
    layout the comment of [create_buffer] announces, interleaved rgba in
    row-major order: channel [c] of the pixel in column [x] of row [y] is
    element [4 * (y * width + x) + c], and every element the extents admit
    lies within the [4 * width * height] elements of the image. *)
Theorem create_buffer_interleaved_row_major (width height x y c : Z) :
  0 < width -> 4 * width <= Int.max_signed ->
  in_extent (create_buffer width height) x y c ->
  element_offset (create_buffer width height) x y c
    = Some (4 * (y * width + x) + c) /\
  0 <= 4 * (y * width + x) + c < 4 * width * height.
Proof. exact (create_buffer_element_layout width height x y c). Qed.

Lemma create_buffer_interleaved_row_major_witness :
  element_offset (create_buffer 640 480) 2 1 3 = Some (4 * (1 * 640 + 2) + 3) /\
  0 <= 4 * (1 * 640 + 2) + 3 < 4 * 640 * 480.
Proof.
  apply (create_buffer_interleaved_row_major 640 480 2 1 3);
    [lia | unfold Int.max_signed; lia |].
  rewrite create_buffer_unfold. unfold in_extent. simpl. lia.
Defined.

(** X3: under the same condition no two elements the extents admit share an
    address: the pixels of the image do not alias through the descriptor. *)
Theorem create_buffer_offsets_injective (width height x y c x' y' c' : Z) :
  0 < width -> 4 * width <= Int.max_signed ->
  in_extent (create_buffer width height) x y c ->
  in_extent (create_buffer width height) x' y' c' ->
  element_offset (create_buffer width height) x y c
    = element_offset (create_buffer width height) x' y' c' ->
  x = x' /\ y = y' /\ c = c'.
Proof.
  intros Hw Hfit. rewrite create_buffer_unfold.
  unfold in_extent, element_offset. simpl.
  assert (Int.mul 4 width = 4 * width) as ->.
  { apply row_stride_exact.
    unfold Int.in_range, Int.min_signed, Int.max_signed in *. lia. }
  intros (Hx & Hy & Hc) (Hx' & Hy' & Hc') Heq.
  injection Heq as Heq.
  assert (c = c') as -> by lia.
  assert (y * width + x = y' * width + x') as Hrow by lia.
  assert (y = y') as -> by nia.
  repeat split; lia.
Qed.

Lemma create_buffer_offsets_injective_witness :
  2 = 2 /\ 1 = 1 /\ 3 = 3.
Proof.
  apply (create_buffer_offsets_injective 640 480 2 1 3 2 1 3);
    [lia | unfold Int.max_signed; lia | | | reflexivity];
    rewrite create_buffer_unfold; unfold in_extent; simpl; lia.
Defined.

(** ** Disciplines [main] keeps *)

Section Disciplines.
Context `{rt : Runtime}.

Lemma remove_one_head {A : Type} `{EqDecision A} (x : A) (l : list A) :
  remove_one x (x :: l) = l.
Proof. simpl. by rewrite decide_True. Qed.

Lemma remove_one_second {A : Type} `{EqDecision A} (x y : A) :
  remove_one x [y; x] = [y].
Proof.
  simpl. destruct (decide (x = y)) as [-> | Hne]; [reflexivity |].
  by rewrite decide_True.
Qed.

(** What a runtime that keeps [f] answers, entry by entry. *)
Lemma transcript_keeps {A X : Type} (f : buffer_t -> X) (p : prog A) (w : world) :
  keeps f ->
  Forall (fun a => f <$> resp_bufs (the_call a) (the_answer a)
                   = f <$> (snd <$> call_bufs (the_call a)))
         (transcript p w).
Proof.
  intros Hk. revert w.
  induction p as [a | c k IH | status | ]; intros w; simpl; try constructor.
  - apply Hk.
  - apply IH.
Qed.

(** X4: every filter invocation, wrap, detach and copy-to-host of a run of
    [main] lies between a [Timer::start] and the [Timer::report] that is
    given the token this start returned; loading, window set-up, allocation,
    texture creation, drawing, release and teardown lie outside the timed
    regions; regions do not overlap and none is left open. *)
Theorem main_timed_regions (argv : list string) (w : world) :
  command_line 2 argv ->
  timed None (transcript (main 2 argv) w).
Proof.
  intros Hargs. destruct (command_line_filename argv Hargs) as [filename Hf].
  destruct (main_transcript argv filename w Hf)
    as (layout & glfw & p1 & t1 & a1 & r1 & p2 & t2 & a2 & s2 & o2 & r2
        & tex1 & tex2 & t3 & sa & i1 & sb & o1 & sc & i3 & o3 & sd & o4
        & se & i4 & r3 & sf & Ht).
  cbv zeta in Ht. rewrite Ht. simpl.
  repeat split; congruence.
Qed.

(** X5: with a runtime that leaves the host pointer of the descriptors it
    receives alone, a run of [main] uses host memory safely: every address
    it passes to a call, directly or as the host pointer of a descriptor,
    is null or a block received from the loader or from [calloc] and not
    freed yet; each [free] receives such a block; and when [main] returns
    every block has been freed. *)
Theorem main_memory_discipline (argv : list string) (w : world) :
  command_line 2 argv ->
  keeps host ->
  memory_ok [] (transcript (main 2 argv) w).
Proof.
  intros Hargs Hk. destruct (command_line_filename argv Hargs) as [filename Hf].
  pose proof (transcript_keeps host (main 2 argv) w Hk) as Hkept.
  destruct (main_transcript argv filename w Hf)
    as (layout & glfw & p1 & t1 & a1 & r1 & p2 & t2 & a2 & s2 & o2 & r2
        & tex1 & tex2 & t3 & sa & i1 & sb & o1 & sc & i3 & o3 & sd & o4
        & se & i4 & r3 & sf & Ht).
  cbv zeta in Ht. rewrite Ht in *. clear Ht.
  rewrite !Forall_cons in Hkept. simpl in Hkept.
  destruct Hkept as (_ & _ & _ & _ & _ & _ & _ & _ & _ & _ & _ & _ & _
                     & Ha2 & _ & _ & _ & _ & _ & _ & _ & Hi1 & Ho1 & H3 & _).
  injection Ha2 as _ Ha2. injection Hi1 as Hi1. injection Ho1 as Ho1.
  injection H3 as Hi3 Ho3.
  cbn -[remove_one]. rewrite Ha2, Hi1, Ho1, Hi3, Ho3, Hi1, Ho1.
  rewrite !remove_one_head.
  repeat first [split | apply Forall_nil_2 | apply Forall_cons_2];
    first [reflexivity | by left | by right; repeat constructor
           | by repeat constructor].
Qed.

(** X6: a run of [main] handles its textures in order: a texture is
    wrapped or drawn only after it was created and before it is deleted;
    no descriptor is wrapped twice, and a descriptor is detached only while
    wrapped; textures are deleted only when every wrapped descriptor has
    been detached; and when [halide_opengl_context_lost] is called, as when
    [main] returns, every texture created has been deleted. *)
Theorem main_texture_discipline (argv : list string) (w : world) :
  command_line 2 argv ->
  textures_ok [] [] (transcript (main 2 argv) w).
Proof.
  intros Hargs. destruct (command_line_filename argv Hargs) as [filename Hf].
  destruct (main_transcript argv filename w Hf)
    as (layout & glfw & p1 & t1 & a1 & r1 & p2 & t2 & a2 & s2 & o2 & r2
        & tex1 & tex2 & t3 & sa & i1 & sb & o1 & sc & i3 & o3 & sd & o4
        & se & i4 & r3 & sf & Ht).
  cbv zeta in Ht. rewrite Ht. clear Ht.
  cbn -[remove_one]. rewrite !remove_one_head, remove_one_second, remove_one_head.
  repeat split; try by repeat constructor.
  - apply not_elem_of_nil.
  - apply not_elem_of_cons. split; [discriminate | apply not_elem_of_nil].
Qed.

(** ** What flows where in [main] *)

(** The request to [calloc] when the byte count of the image fits an [int]. *)
Lemma calloc_count_exact (width height : Z) :
  0 < width -> 0 < height -> 4 * width * height <= Int.max_signed ->
  size_t_of_int (Int.mul (Int.mul width height) 4) = 4 * width * height.
Proof.
  intros Hw Hh Hfit. unfold Int.mul, size_t_of_int.
  unfold Int.max_signed in Hfit.
  rewrite (wrap_small (width * height))
    by (unfold Int.in_range, Int.min_signed, Int.max_signed; nia).
  rewrite wrap_small
    by (unfold Int.in_range, Int.min_signed, Int.max_signed; nia).
  rewrite Z.mod_small; lia.
Qed.

Ltac cut_segment n m :=
  lazymatch goal with
  | |- segment ?s ?l => exists (take n l), (drop m l); reflexivity
  end.

(** X7: when the loaded image has positive dimensions and its
    [4 * width * height] bytes fit an [int], each host output buffer is
    requested from [calloc] with exactly that many bytes right before its
    strategy starts, the output descriptor the filter receives points at
    the block [calloc] returned, and every element the descriptor's extents
    admit lies inside the requested block. *)
Theorem main_output_buffers_fit (argv : list string) (filename : string) (w : world) :
  argv !! 1%nat = Some filename ->
  let image := (respond (PNGHelpers_load filename) w).1 in
  let width := image_width image in
  let height := image_height image in
  0 < width -> 0 < height -> 4 * width * height <= Int.max_signed ->
  exists p1 t1 i1 o1 a1 p2 t2 i2 o2 a2,
    segment [ calloc (4 * width * height) 1 ~> p1;
              Timer_start "CPU" ~> t1;
              sample_filter_cpu (addr_input i1) (addr_output o1) ~> a1 ]
            (transcript (main 2 argv) w) /\
    segment [ calloc (4 * width * height) 1 ~> p2;
              Timer_start "OpenGL host-to-host" ~> t2;
              sample_filter_opengl (addr_input i2) (addr_output o2) ~> a2 ]
            (transcript (main 2 argv) w) /\
    host o1 = p1 /\ host o2 = p2 /\
    forall o x y c,
      o = o1 \/ o = o2 ->
      in_extent o x y c ->
      exists off, element_offset o x y c = Some off
                  /\ 0 <= off < 4 * width * height * 1.
Proof.
  intros Hf image width height Hw Hh Hfit.
  destruct (main_transcript argv filename w Hf)
    as (layout & glfw & p1 & t1 & a1 & r1 & p2 & t2 & a2 & s2 & o2 & r2
        & tex1 & tex2 & t3 & sa & i1 & sb & o1 & sc & i3 & o3 & sd & o4
        & se & i4 & r3 & sf & Ht).
  cbv zeta in Ht. fold image in Ht. fold width height in Ht.
  rewrite (calloc_count_exact width height Hw Hh Hfit) in Ht.
  rewrite Ht. clear Ht.
  exists p1, t1, (set_host (create_buffer width height) (image_data image)),
         (set_host (create_buffer width height) p1), a1,
         p2, t2,
         (set_host_dirty
            (set_host (create_buffer width height) (image_data image)) true),
         (set_host (create_buffer width height) p2), a2.
  split; [cut_segment 5%nat 8%nat |]. split; [cut_segment 11%nat 14%nat |].
  split; [reflexivity |]. split; [reflexivity |].
  intros o x y c Ho Hin.
  assert (4 * width <= Int.max_signed) as Hrow by nia.
  assert (in_extent (create_buffer width height) x y c) as Hin'
    by (destruct Ho as [-> | ->]; exact Hin).
  destruct (create_buffer_element_layout width height x y c Hw Hrow Hin')
    as [Hoff Hbound].
  exists (4 * (y * width + x) + c). split; [| lia].
  destruct Ho as [-> | ->]; exact Hoff.
Qed.

(** X8: a run of [main] shows what was computed.  Both host filters read
    the loaded image data, the data drawn at [UL]; the buffer the CPU filter
    was given as output is the one drawn at [UR], labelled with the report
    of the CPU timer, and is freed right after; the same holds for the
    host-to-host strategy at [LL], whose copy-to-host receives the output
    descriptor as the filter left it; the texture strategy wraps the texture
    created from the image data as input and the texture created empty as
    output, and the latter is drawn at [LR] with the strategy's report
    before both textures are deleted. *)
Theorem main_draws_what_was_computed (argv : list string) (filename : string)
    (w : world) :
  argv !! 1%nat = Some filename ->
  let image := (respond (PNGHelpers_load filename) w).1 in
  let width := image_width image in
  let height := image_height image in
  let data := image_data image in
  let T := transcript (main 2 argv) w in
  exists i1 o1 a1 t1 r1 i2 o2 a2 c2 t2 r2 tex1 tex2 t3 b wa wb r3,
    T !! 0%nat = Some (PNGHelpers_load filename ~> image) /\
    segment [ Layout_draw_image UL data width height "Input" ~> tt ] T /\
    host i1 = data /\ host i2 = data /\
    segment [ sample_filter_cpu (addr_input i1) (addr_output o1) ~> a1;
              Timer_report t1 ~> r1;
              Layout_draw_image UR (host o1) width height r1 ~> tt;
              free (host o1) ~> tt ] T /\
    segment [ sample_filter_opengl (addr_input i2) (addr_output o2) ~> a2;
              halide_copy_to_host nullptr (addr_output a2.2) ~> c2;
              Timer_report t2 ~> r2;
              Layout_draw_image LL (host o2) width height r2 ~> tt;
              free (host o2) ~> tt ] T /\
    segment [ OpenGLHelpers_create_texture width height data ~> tex1;
              OpenGLHelpers_create_texture width height nullptr ~> tex2;
              Timer_start "OpenGL texture-to-texture" ~> t3;
              halide_opengl_wrap_texture nullptr (addr_input b) tex1 ~> wa;
              halide_opengl_wrap_texture nullptr (addr_output b) tex2 ~> wb ] T /\
    segment [ Timer_report t3 ~> r3;
              Layout_draw_texture LR tex2 width height r3 ~> tt;
              OpenGLHelpers_delete_texture tex1 ~> tt;
              OpenGLHelpers_delete_texture tex2 ~> tt ] T.
Proof.
  intros Hf image width height data T.
  destruct (main_transcript argv filename w Hf)
    as (layout & glfw & p1 & t1 & a1 & r1 & p2 & t2 & a2 & s2 & o2 & r2
        & tex1 & tex2 & t3 & sa & i1 & sb & o1 & sc & i3 & o3 & sd & o4
        & se & i4 & r3 & sf & Ht).
  cbv zeta in Ht. fold image in Ht. fold width height data in Ht.
  subst T. rewrite Ht. clear Ht.
  exists (set_host (create_buffer width height) data),
         (set_host (create_buffer width height) p1), a1, t1, r1,
         (set_host_dirty (set_host (create_buffer width height) data) true),
         (set_host (create_buffer width height) p2), a2, (s2, o2), t2, r2,
         tex1, tex2, t3, (create_buffer width height), (sa, i1), (sb, o1), r3.
  split; [reflexivity |].
  split; [cut_segment 4%nat 5%nat |].
  split; [reflexivity |]. split; [reflexivity |].
  split; [cut_segment 7%nat 11%nat |].
  split; [cut_segment 13%nat 18%nat |].
  split; [cut_segment 18%nat 23%nat |].
  cut_segment 26%nat 30%nat.
Qed.

End Disciplines.

Lemma main_output_buffers_fit_witness :
  let rt := sample_runtime 0 in
  let argv := ["opengl_demo"; "image.png"] in
  exists p1 t1 i1 o1 a1 p2 t2 i2 o2 a2,
    segment [ calloc (4 * 4 * 1) 1 ~> p1;
              Timer_start "CPU" ~> t1;
              sample_filter_cpu (addr_input i1) (addr_output o1) ~> a1 ]
            (transcript (main 2 argv) 0) /\
    segment [ calloc (4 * 4 * 1) 1 ~> p2;
              Timer_start "OpenGL host-to-host" ~> t2;
              sample_filter_opengl (addr_input i2) (addr_output o2) ~> a2 ]
            (transcript (main 2 argv) 0) /\
    host o1 = p1 /\ host o2 = p2 /\
    forall o x y c,
      o = o1 \/ o = o2 ->
      in_extent o x y c ->
      exists off, element_offset o x y c = Some off
                  /\ 0 <= off < 4 * 4 * 1 * 1.
Proof.
  apply (main_output_buffers_fit (rt := sample_runtime 0)
           ["opengl_demo"; "image.png"] "image.png" 0);
    [reflexivity | simpl; lia | simpl; lia | unfold Int.max_signed; simpl; lia].
Defined.

Lemma main_draws_what_was_computed_witness :
  let rt := sample_runtime 0 in
  let T := transcript (main 2 ["opengl_demo"; "image.png"]) 0 in
  exists i1 o1 a1 t1 r1 i2 o2 a2 c2 t2 r2 tex1 tex2 t3 b wa wb r3,
    T !! 0%nat = Some (PNGHelpers_load "image.png"
                         ~> {| image_width := 4; image_height := 1;
                               image_data := 4096 |}) /\
    segment [ Layout_draw_image UL 4096 4 1 "Input" ~> tt ] T /\
    host i1 = 4096 /\ host i2 = 4096 /\
    segment [ sample_filter_cpu (addr_input i1) (addr_output o1) ~> a1;
              Timer_report t1 ~> r1;
              Layout_draw_image UR (host o1) 4 1 r1 ~> tt;
              free (host o1) ~> tt ] T /\
    segment [ sample_filter_opengl (addr_input i2) (addr_output o2) ~> a2;
              halide_copy_to_host nullptr (addr_output a2.2) ~> c2;
              Timer_report t2 ~> r2;
              Layout_draw_image LL (host o2) 4 1 r2 ~> tt;
              free (host o2) ~> tt ] T /\
    segment [ OpenGLHelpers_create_texture 4 1 4096 ~> tex1;
              OpenGLHelpers_create_texture 4 1 nullptr ~> tex2;
              Timer_start "OpenGL texture-to-texture" ~> t3;
              halide_opengl_wrap_texture nullptr (addr_input b) tex1 ~> wa;
              halide_opengl_wrap_texture nullptr (addr_output b) tex2 ~> wb ] T /\
    segment [ Timer_report t3 ~> r3;
              Layout_draw_texture LR tex2 4 1 r3 ~> tt;
              OpenGLHelpers_delete_texture tex1 ~> tt;
              OpenGLHelpers_delete_texture tex2 ~> tt ] T.
Proof.
  apply (main_draws_what_was_computed (rt := sample_runtime 0)
           ["opengl_demo"; "image.png"] "image.png" 0).
  reflexivity.
Defined.

Lemma main_memory_discipline_witness :
  memory_ok [] (transcript (rt := sample_runtime 0)
                  (main 2 ["opengl_demo"; "image.png"]) 0).
Proof.
  apply (main_memory_discipline (rt := sample_runtime 0)); [reflexivity |].
  apply sample_runtime_keeps. reflexivity.
Defined.

Lemma main_texture_discipline_witness :
  textures_ok [] [] (transcript (rt := sample_runtime 0)
                       (main 2 ["opengl_demo"; "image.png"]) 0).
Proof.
  apply (main_texture_discipline (rt := sample_runtime 0)). reflexivity.
Defined.

Lemma main_timed_regions_witness :
  timed None (transcript (rt := sample_runtime 0)
                (main 2 ["opengl_demo"; "image.png"]) 0).
Proof.
  apply (main_timed_regions (rt := sample_runtime 0)). reflexivity.
Defined.

(** ** The strategies side by side *)

(** X9: the host-to-host strategy hands the OpenGL filter the descriptors
    the CPU strategy hands the CPU filter, but for the [host_dirty] flag of
    the input, which only the host-to-host strategy sets; in neither
    strategy does a descriptor carry a device handle when the filter is
    invoked. *)
Theorem host_strategies_same_descriptors `{rt : Runtime}
    (image_data result_data : ptr) (width height : Z) (w w' : world) :
  exists i o,
    segment [ sample_filter_cpu (addr_input i) (addr_output o) ]
            (trace (run (run_cpu_filter image_data result_data width height) w)) /\
    segment [ sample_filter_opengl (addr_input (set_host_dirty i true))
                                   (addr_output o) ]
            (trace (run (run_opengl_filter_from_host_to_host
                           image_data result_data width height) w')) /\
    host_dirty i = false /\ dev i = 0 /\ dev o = 0.
Proof.
  destruct (run_cpu_filter_exec image_data result_data width height w)
    as (? & ? & ? & ? & ? & ? & -> & _).
  destruct (run_opengl_filter_from_host_to_host_exec
              image_data result_data width height w')
    as (? & ? & ? & ? & ? & ? & ? & ? & ? & -> & _).
  cbn [trace].
  exists (set_host (create_buffer width height) image_data),
         (set_host (create_buffer width height) result_data).
  split; [| split; [| by repeat split]].
  - lazymatch goal with
    | |- segment ?s ?l => exists (take 1 l), (drop 2 l); reflexivity
    end.
  - lazymatch goal with
    | |- segment ?s ?l => exists (take 1 l), (drop 2 l); reflexivity
    end.
Qed.

(** X10: each strategy returns the string [Timer::report] answers, and that
    report is asked for the token the strategy's own [Timer::start]
    returned; between the two the strategy makes filter and device calls
    only, and the timer names are CPU, OpenGL host-to-host and OpenGL
    texture-to-texture. *)
Theorem strategies_return_their_report `{rt : Runtime}
    (image_data result_data : ptr) (input_texture_id output_texture_id : GLuint)
    (width height : Z) (w : world) :
  let timed_strategy (name : string) (p : prog string) :=
    exists t body r,
      transcript p w = ((Timer_start name ~> t) :: body ++ [Timer_report t ~> r])%list /\
      result (run p w) = Returned r /\
      Forall (fun a => is_invoke (the_call a) || is_device_op (the_call a) = true)
             body in
  timed_strategy "CPU"
    (run_cpu_filter image_data result_data width height) /\
  timed_strategy "OpenGL host-to-host"
    (run_opengl_filter_from_host_to_host image_data result_data width height) /\
  timed_strategy "OpenGL texture-to-texture"
    (run_opengl_filter_from_texture_to_texture
       input_texture_id output_texture_id width height).
Proof.
  cbv zeta. repeat apply conj.
  - destruct (run_cpu_filter_transcript image_data result_data width height w)
      as (t & s & i & o & r & -> & ->).
    eexists t, [_], r. split; [reflexivity |]. split; [reflexivity |].
    by repeat constructor.
  - destruct (run_opengl_filter_from_host_to_host_transcript
                image_data result_data width height w)
      as (t & s & i & o & s' & o' & r & -> & ->).
    eexists t, [_; _], r. split; [reflexivity |]. split; [reflexivity |].
    by repeat constructor.
  - destruct (run_opengl_filter_from_texture_to_texture_transcript
                input_texture_id output_texture_id width height w)
      as (t & s1 & i1 & s2 & o1 & s3 & i2 & o2 & s4 & o3 & s5 & i3 & r & -> & ->).
    eexists t, [_; _; _; _; _], r. split; [reflexivity |]. split; [reflexivity |].
    by repeat constructor.
Qed.

(** ** The monitors reject what they should *)

Example timed_rejects_untimed_invocation (i o : buf_ref) r :
  ~ timed None [sample_filter_cpu i o ~> r].
Proof. simpl. intros [H _]. by apply H. Qed.

Example timed_rejects_foreign_token :
  ~ timed None [Timer_start "CPU" ~> 1; Timer_report 2 ~> "report"].
Proof. simpl. intros (_ & H & _). discriminate. Qed.

Example memory_ok_rejects_leak :
  ~ memory_ok [] [calloc 16 1 ~> 4096].
Proof. simpl. intros [_ H]. discriminate. Qed.

Example memory_ok_rejects_use_after_free :
  ~ memory_ok [] [ calloc 16 1 ~> 4096; free 4096 ~> tt;
                   Layout_draw_image UR 4096 4 1 "report" ~> tt ].
Proof.
  simpl. intros (_ & _ & _ & H & _).
  apply Forall_cons in H as [[H | H] _]; [discriminate | by inversion H].
Qed.

Example textures_ok_rejects_delete_while_wrapped (buf : buffer_t) :
  ~ textures_ok [] [] [ OpenGLHelpers_create_texture 4 1 nullptr ~> 7;
                        halide_opengl_wrap_texture nullptr (addr_output buf) 7
                          ~> (0, buf);
                        OpenGLHelpers_delete_texture 7 ~> tt ].
Proof. simpl. intros (_ & _ & _ & H & _). discriminate. Qed.

(** ** Status codes and failed allocations *)

Section Statuses.
Context `{rt : Runtime} (status : call -> world -> Z).

Lemma run_cpu_filter_status_blind image_data result_data width height w :
  same_execution status
    (run (rt := with_statuses rt status)
         (run_cpu_filter image_data result_data width height) w)
    (run (rt := rt) (run_cpu_filter image_data result_data width height) w).
Proof.
  unfold same_execution, run_cpu_filter. simpl.
  destruct (respond (Runtime := rt) (Timer_start "CPU") w) as [time w1]. simpl.
  destruct (respond (Runtime := rt) _ w1) as [[[s ib] ob] w2]. simpl.
  by destruct (respond (Runtime := rt) (Timer_report time) w2).
Qed.

Lemma run_opengl_filter_from_host_to_host_status_blind
    image_data result_data width height w :
  same_execution status
    (run (rt := with_statuses rt status)
         (run_opengl_filter_from_host_to_host
            image_data result_data width height) w)
    (run (rt := rt)
         (run_opengl_filter_from_host_to_host
            image_data result_data width height) w).
Proof.
  unfold same_execution, run_opengl_filter_from_host_to_host. simpl.
  destruct (respond (Runtime := rt) (Timer_start _) w) as [time w1]. simpl.
  destruct (respond (Runtime := rt) _ w1) as [[[s ib] ob] w2]. simpl.
  destruct (respond (Runtime := rt) _ w2) as [[s' ob'] w3]. simpl.
  by destruct (respond (Runtime := rt) (Timer_report time) w3).
Qed.

Lemma run_opengl_filter_from_texture_to_texture_status_blind
    input_texture_id output_texture_id width height w :
  same_execution status
    (run (rt := with_statuses rt status)
         (run_opengl_filter_from_texture_to_texture
            input_texture_id output_texture_id width height) w)
    (run (rt := rt)
         (run_opengl_filter_from_texture_to_texture
            input_texture_id output_texture_id width height) w).
Proof.
  unfold same_execution, run_opengl_filter_from_texture_to_texture. simpl.
  destruct (respond (Runtime := rt) (Timer_start _) w) as [time w1]. simpl.
  destruct (respond (Runtime := rt) _ w1) as [[s1 i1] w2]. simpl.
  destruct (respond (Runtime := rt) _ w2) as [[s2 o1] w3]. simpl.
  destruct (respond (Runtime := rt) _ w3) as [[[s3 i2] o2] w4]. simpl.
  destruct (respond (Runtime := rt) _ w4) as [[s4 o3] w5]. simpl.
  destruct (respond (Runtime := rt) _ w5) as [[s5 i3] w6]. simpl.
  by destruct (respond (Runtime := rt) (Timer_report time) w6).
Qed.

(** Sequencing keeps executions alike. *)
Lemma same_execution_bind {A B : Type} (p : prog A) (f : A -> prog B) w :
  same_execution status (run (rt := with_statuses rt status) p w)
                        (run (rt := rt) p w) ->
  (forall a w', same_execution status
                  (run (rt := with_statuses rt status) (f a) w')
                  (run (rt := rt) (f a) w')) ->
  same_execution status (run (rt := with_statuses rt status) (p ≫= f) w)
                        (run (rt := rt) (p ≫= f) w).
Proof.
  intros (Hr & Ht & Hw) Hf. unfold same_execution.
  rewrite (run_bind (rt := with_statuses rt status)), (run_bind (rt := rt)).
  rewrite Hr, Ht, Hw.
  destruct (result (run (rt := rt) p w)) as [a | n | ]; cbn [result trace final];
    try done.
  destruct (Hf a (final (run (rt := rt) p w))) as (Hr' & Ht' & Hw').
  by rewrite Hr', Ht', Hw'.
Qed.

(** A call whose status, if any, the rest of the program does not read. *)
Lemma same_execution_call {A : Type} (c : call) (f : resp c -> prog A) w :
  (forall s r w', same_execution status
                    (run (rt := with_statuses rt status) (f (set_status c s r)) w')
                    (run (rt := rt) (f r) w')) ->
  same_execution status (run (rt := with_statuses rt status) (call_ c ≫= f) w)
                        (run (rt := rt) (call_ c ≫= f) w).
Proof.
  intros Hf. unfold same_execution.
  change (run (rt := with_statuses rt status) (call_ c ≫= f) w)
    with (let rw := respond (Runtime := with_statuses rt status) c w in
          let e := run (rt := with_statuses rt status) (f rw.1) rw.2 in
          mk_execution (result e) (c :: trace e) (final e)).
  change (run (rt := rt) (call_ c ≫= f) w)
    with (let rw := respond (Runtime := rt) c w in
          let e := run (rt := rt) (f rw.1) rw.2 in
          mk_execution (result e) (c :: trace e) (final e)).
  cbv zeta. cbn [result trace final respond with_statuses fst snd].
  destruct (Hf (status c w) (respond (Runtime := rt) c w).1
               (respond (Runtime := rt) c w).2) as (Hr & Ht & Hw).
  split; [exact Hr |]. split; [by f_equal | exact Hw].
Qed.

Ltac status_blind_step :=
  lazymatch goal with
  | |- same_execution _ (run (call_ _ ≫= _) _) _ =>
      apply same_execution_call; intros ? ? ?; cbv beta; cbn [set_status]
  | |- same_execution _ (run (run_cpu_filter _ _ _ _ ≫= _) _) _ =>
      apply same_execution_bind;
      [apply run_cpu_filter_status_blind | intros ? ?; cbv beta]
  | |- same_execution _ (run (run_opengl_filter_from_host_to_host _ _ _ _ ≫= _) _) _ =>
      apply same_execution_bind;
      [apply run_opengl_filter_from_host_to_host_status_blind
      | intros ? ?; cbv beta]
  | |- same_execution _
         (run (run_opengl_filter_from_texture_to_texture _ _ _ _ ≫= _) _) _ =>
      apply same_execution_bind;
      [apply run_opengl_filter_from_texture_to_texture_status_blind
      | intros ? ?; cbv beta]
  end.

(** X11: no status code influences what [main] does.  Against a runtime
    and against the same runtime with the status code of every filter,
    copy-to-host, wrap, detach and teardown call replaced by an arbitrary
    one, [main] makes the same calls with the same arguments in the same
    order, leaves the same world and ends the same way, for every command
    line. *)
Theorem main_ignores_status_codes (argc : Z) (argv : list string) (w : world) :
  same_execution status
    (run (rt := with_statuses rt status) (main argc argv) w)
    (run (rt := rt) (main argc argv) w).
Proof.
  unfold main. apply same_execution_bind.
  - destruct (negb (argc =? 2)%Z).
    + repeat status_blind_step. unfold same_execution. simpl. done.
    + by (unfold same_execution; simpl).
  - intros [] w0.
    destruct (argv !! 1%nat) as [filename |]; [| by (unfold same_execution; simpl)].
    change (Ret filename ≫= ?f) with (f filename). cbv beta.
    repeat status_blind_step. by (unfold same_execution; simpl).
Qed.

End Statuses.

(** The sample run with every status code replaced by 7. *)
Example main_ignores_status_codes_sample :
  trace (run (rt := with_statuses (sample_runtime 0) (fun _ _ => 7))
             (main 2 ["opengl_demo"; "image.png"]) 0)
  = trace (run (rt := sample_runtime 0) (main 2 ["opengl_demo"; "image.png"]) 0).
Proof. reflexivity. Qed.

(** Every answer in a transcript is what the runtime gave in some world. *)
Lemma transcript_answers `{rt : Runtime} {A : Type} (p : prog A) (w : world) :
  Forall (fun a => exists w', the_answer a = (respond (the_call a) w').1)
         (transcript p w).
Proof.
  revert w. induction p as [a | c k IH | status | ]; intros w; simpl;
    try constructor.
  - by exists w.
  - apply IH.
Qed.

(** X12: [main] does not check what [calloc] returns.  With an allocator
    that returns null, both host filters are still invoked, with a null host
    pointer in the output descriptor; the null pointer is drawn and freed;
    and [main] returns 0. *)
Theorem main_does_not_check_calloc `{rt : Runtime}
    (argv : list string) (w : world) :
  command_line 2 argv ->
  (forall n s w', (respond (calloc n s) w').1 = nullptr) ->
  let T := transcript (main 2 argv) w in
  result (run (main 2 argv) w) = Returned 0 /\
  exists i1 o1 a1 t1 r1 i2 o2 a2 c2 t2 r2 width height,
    host o1 = nullptr /\ host o2 = nullptr /\
    segment [ sample_filter_cpu (addr_input i1) (addr_output o1) ~> a1;
              Timer_report t1 ~> r1;
              Layout_draw_image UR nullptr width height r1 ~> tt;
              free nullptr ~> tt ] T /\
    segment [ sample_filter_opengl (addr_input i2) (addr_output o2) ~> a2;
              halide_copy_to_host nullptr (addr_output a2.2) ~> c2;
              Timer_report t2 ~> r2;
              Layout_draw_image LL nullptr width height r2 ~> tt;
              free nullptr ~> tt ] T.
Proof.
  intros Hargs Hnull T. split; [by apply main_returns_0 |].
  destruct (command_line_filename argv Hargs) as [filename Hf].
  pose proof (transcript_answers (main 2 argv) w) as Hans.
  destruct (main_transcript argv filename w Hf)
    as (layout & glfw & p1 & t1 & a1 & r1 & p2 & t2 & a2 & s2 & o2 & r2
        & tex1 & tex2 & t3 & sa & i1 & sb & o1 & sc & i3 & o3 & sd & o4
        & se & i4 & r3 & sf & Ht).
  cbv zeta in Ht. subst T. rewrite Ht in *. clear Ht.
  rewrite !Forall_cons in Hans. cbn [the_call the_answer] in Hans.
  destruct Hans as (_ & _ & _ & _ & _ & [w1 Hp1] & _ & _ & _ & _ & _
                    & [w2 Hp2] & _).
  rewrite Hnull in Hp1, Hp2. subst p1 p2.
  eexists _, _, a1, t1, r1, _, _, a2, (s2, o2), t2, r2, _, _.
  split; [| split; [| split]].
  3: { lazymatch goal with
       | |- segment ?s ?l => exists (take 7 l), (drop 11 l); reflexivity
       end. }
  3: { lazymatch goal with
       | |- segment ?s ?l => exists (take 13 l), (drop 18 l); reflexivity
       end. }
  all: reflexivity.
Qed.

Lemma main_does_not_check_calloc_witness :
  let rt := out_of_memory_runtime in
  let T := transcript (main 2 ["opengl_demo"; "image.png"]) 0 in
  result (run (main 2 ["opengl_demo"; "image.png"]) 0) = Returned 0 /\
  exists i1 o1 a1 t1 r1 i2 o2 a2 c2 t2 r2 width height,
    host o1 = nullptr /\ host o2 = nullptr /\
    segment [ sample_filter_cpu (addr_input i1) (addr_output o1) ~> a1;
              Timer_report t1 ~> r1;
              Layout_draw_image UR nullptr width height r1 ~> tt;
              free nullptr ~> tt ] T /\
    segment [ sample_filter_opengl (addr_input i2) (addr_output o2) ~> a2;
              halide_copy_to_host nullptr (addr_output a2.2) ~> c2;
              Timer_report t2 ~> r2;
              Layout_draw_image LL nullptr width height r2 ~> tt;
              free nullptr ~> tt ] T.
Proof.
  apply (main_does_not_check_calloc (rt := out_of_memory_runtime)
           ["opengl_demo"; "image.png"] 0); reflexivity.
Defined.
